(** * Collaborative drawing board: the persistence and stroke-synchronisation core

    A shallow embedding of the handlers of [src/components/DrawingBoard.jsx]
    (the component with the image tools).  The older variants kept beside it
    have the same handlers with [console.error] diagnostics added; the one
    that differs in structure is [draw], embedded a second time as
    [draw_checked].

    The component is a React function component.  Each render binds the
    state variables ([user], [isDrawing], [currentDrawingId], ...) as
    constants and builds fresh handler closures over them; a [setX] call
    writes React's store and is seen by the NEXT render only.  A handler is
    therefore a function of two things: the render it was created in (a
    [State] snapshot, argument [r] below, which every read of a state
    variable goes to) and the live [World] (React's store, the canvas behind
    [canvasRef], the backend tables), which its effects go to.  An [async]
    handler is run to its end, each [await] being given what it settles to.

    What is not in the repository is taken as a parameter: the browser's
    rasteriser, PNG codec and image decoder ([Browser]), what its canvas
    reads back of a translucent pixel written to it, and what the hosted
    backend and the network answer to each request ([Net], [Pick]). *)

From Stdlib Require Import ZArith List String Ascii Bool Lia.
From Stdlib Require Import DecimalString Sorting.Permutation Sorting.Sorted.
From Stdlib Require Import PrimFloat SpecFloat FloatOps FloatAxioms Uint63.
From Stdlib Require Strings.Byte.
Import ListNotations.
Open Scope string_scope.
Open Scope list_scope.
Open Scope Z_scope.

(* ================================================================= *)
(** ** JavaScript numbers *)

Module JS.

(** A JS Number is an IEEE 754 binary64 value. *)
Definition number := float.

Definition of_Z (z : Z) : number := PrimFloat.of_uint63 (Uint63.of_Z z).

(** The exact value [n * 2^e] of a finite number; [None] for NaN and the
    infinities. *)
Definition dyadic (x : number) : option (Z * Z) :=
  match Prim2SF x with
  | S754_zero _ => Some (0, 0)
  | S754_finite s m e => Some (if s then Z.neg m else Z.pos m, e)
  | S754_infinity _ => None
  | S754_nan => None
  end.

Definition isFinite (x : number) : bool :=
  match dyadic x with Some _ => true | None => false end.

(** [Math.round]: the closest integer, ties towards plus infinity.  The
    result of [Math.round] on NaN or an infinity is that same value, which
    a JSON request body carries as [null]: [None] here. *)
Definition Math_round (x : number) : option Z :=
  match dyadic x with
  | Some (n, e) =>
      Some (if 0 <=? e then n * 2 ^ e
            else Z.shiftr (n + 2 ^ (- e - 1)) (- e))
  | None => None
  end.

(** [Math.min] of two numbers: NaN if either is NaN. *)
Definition Math_min (a b : number) : number :=
  if PrimFloat.is_nan a then a
  else if PrimFloat.is_nan b then b
  else if PrimFloat.ltb b a then b else a.

(** Storing a number into a [Uint8ClampedArray] element (ToUint8Clamp):
    NaN becomes 0, the value is clamped to 0..255 and rounded to the
    nearest integer, ties to even. *)
Definition ToUint8Clamp (x : number) : Z :=
  if PrimFloat.is_nan x then 0
  else if PrimFloat.leb x 0%float then 0
  else if PrimFloat.leb 255%float x then 255
  else
    match dyadic x with
    | Some (n, e) =>
        if 0 <=? e then n * 2 ^ e
        else
          let f := Z.shiftr n (- e) in
          let rest := n - Z.shiftl f (- e) in
          let half := 2 ^ (- e - 1) in
          if half <? rest then f + 1
          else if rest <? half then f
          else if Z.even f then f else f + 1
    | None => 0
    end.

(** Decimal rendering of an integer, as string concatenation and template
    literals produce it. *)
Definition String_of_Z (z : Z) : string := NilZero.string_of_int (Z.to_int z).

(** Truthiness of a possibly-null string: [null] and [''] are falsy. *)
Definition truthy (s : option string) : bool :=
  match s with
  | Some EmptyString => false
  | Some _ => true
  | None => false
  end.

End JS.

(* ================================================================= *)
(** ** The canvas surface *)

(** The pixel buffer of the [<canvas>]: [4 * width * height] bytes, RGBA,
    row-major, as [getImageData(0, 0, width, height).data] shows it. *)
Record Bitmap : Type := mkBitmap {
  width : Z;
  height : Z;
  data : list Z
}.

Definition Point : Type := (JS.number * JS.number)%type.

(** The part of the 2D context's state the component touches.  The current
    path is a list of subpaths, oldest first. *)
Record Context2D : Type := mkContext2D {
  lineCap : string;
  lineJoin : string;
  strokeStyle : string;
  lineWidth : Z;
  path : list (list Point)
}.

Record Canvas : Type := mkCanvas {
  bitmap : Bitmap;
  ctx : Context2D
}.

(** What the browser does and the repository does not contain. *)
Record Browser : Type := mkBrowser {
  (** [ctx.stroke()]: paints the whole current path with the context's
      style, width, caps and joins. *)
  stroke_raster : Bitmap -> Context2D -> Bitmap;
  (** [canvas.toDataURL()]. *)
  toDataURL : Bitmap -> string;
  (** Assigning [img.src]: [Some image] when the [load] event fires,
      [None] when the [error] event fires. *)
  decode_image : string -> option Bitmap;
  (** [ctx.drawImage(img, 0, 0)]. *)
  drawImage : Bitmap -> Bitmap -> Bitmap
}.

(** A fully transparent buffer. *)
Definition blank (w h : Z) : Bitmap :=
  mkBitmap w h (repeat 0 (Z.to_nat (4 * w * h))).

(** [ctx.clearRect(0, 0, canvas.width, canvas.height)]. *)
Definition clearRect_all (b : Bitmap) : Bitmap := blank (width b) (height b).

Definition is_blank (b : Bitmap) : Prop := Forall (fun v => v = 0) (data b).

Definition with_path (p : list (list Point)) (c : Context2D) : Context2D :=
  mkContext2D (lineCap c) (lineJoin c) (strokeStyle c) (lineWidth c) p.

(** [ctx.strokeStyle = s] and [ctx.lineWidth = n].  The context ignores a
    value it cannot parse; the colours and sizes the page lets one choose
    (the palette, the colour input, a slider from 1 to 20) are all valid. *)
Definition set_strokeStyle (s : string) (c : Context2D) : Context2D :=
  mkContext2D (lineCap c) (lineJoin c) s (lineWidth c) (path c).

Definition set_lineWidth (n : Z) (c : Context2D) : Context2D :=
  mkContext2D (lineCap c) (lineJoin c) (strokeStyle c) n (path c).

(** [ctx.beginPath()]. *)
Definition beginPath (c : Context2D) : Context2D := with_path [] c.

(** [ctx.moveTo(x, y)]: a new subpath; ignored for a non-finite argument. *)
Definition moveTo (p : Point) (c : Context2D) : Context2D :=
  if JS.isFinite (fst p) && JS.isFinite (snd p)
  then with_path (path c ++ [[p]]) c
  else c.

Fixpoint extend_last (p : Point) (subs : list (list Point)) : list (list Point) :=
  match subs with
  | [] => [[p]]
  | [s] => [s ++ [p]]
  | s :: rest => s :: extend_last p rest
  end.

(** [ctx.lineTo(x, y)]: extends the last subpath (starting one if the path
    is empty); ignored for a non-finite argument. *)
Definition lineTo (p : Point) (c : Context2D) : Context2D :=
  if JS.isFinite (fst p) && JS.isFinite (snd p)
  then with_path (extend_last p (path c)) c
  else c.

(* ================================================================= *)
(** ** The hosted backend *)

Module Error.
Record t : Type := mk { message : string }.
End Error.

Module User.
Record t : Type := mk { id : string; email : string }.
End User.

Module Drawing.
(** A row of the [drawings] table. *)
Record t : Type := mk {
  id : string;
  name : string;
  created_at : Z;
  created_by : string;
  is_public : bool;
  canvas_data : option string
}.
(** The object handed to [insert]; [id] and [created_at] are the server's. *)
Record values : Type := mkValues {
  v_name : string;
  v_is_public : bool;
  v_canvas_data : option string;
  v_created_by : string
}.
(** A row as [select('id, name, created_at, canvas_data')] returns it. *)
Record summary : Type := mkSummary {
  s_id : string;
  s_name : string;
  s_created_at : Z;
  s_canvas_data : option string
}.
Definition summary_of (d : t) : summary :=
  mkSummary (id d) (name d) (created_at d) (canvas_data d).
End Drawing.

Module Stroke.
(** A row of the [drawing_strokes] table.  [drawing_id] is [null] while no
    drawing is current; a coordinate is [null] when it is not finite. *)
Record t : Type := mk {
  drawing_id : option string;
  user_id : string;
  x : option Z;
  y : option Z;
  color : string;
  brush_size : Z
}.
End Stroke.

Record Database : Type := mkDatabase {
  drawings : list Drawing.t;
  drawing_strokes : list Stroke.t
}.

(** The [{ data, error }] object a supabase call resolves to. *)
Module Response.
Record t (A : Type) : Type := mk { data : option A; error : option Error.t }.
Arguments mk {A} _ _.
Arguments data {A} _.
Arguments error {A} _.
Definition ok {A : Type} (a : A) : t A := mk (Some a) None.
Definition failed {A : Type} (e : Error.t) : t A := mk None (Some e).
End Response.

(** How an awaited promise settles. *)
Inductive Settled (A : Type) : Type :=
| Fulfilled (a : A)
| Rejected (e : Error.t).
Arguments Fulfilled {A} _.
Arguments Rejected {A} _.

(** What happens to one request on its way: it reaches the server and is
    executed on the tables ([Up]); it is answered with an error object and
    the tables stay as they are ([Refused]: a policy, a constraint, a network
    error the client library reports); or the promise itself rejects
    ([Down]). *)
Inductive Net : Type :=
| Up
| Refused (e : Error.t)
| Down (e : Error.t).

(** The primary key and the timestamp the server assigns to an inserted
    drawing. *)
Record Pick : Type := mkPick { pick_id : string; pick_time : Z }.

Definition has_id (i : string) (d : Drawing.t) : bool := String.eqb (Drawing.id d) i.

(** [.order('created_at', { ascending: false })]. *)
Fixpoint insert_desc (d : Drawing.t) (l : list Drawing.t) : list Drawing.t :=
  match l with
  | [] => [d]
  | h :: t =>
      if Drawing.created_at h <? Drawing.created_at d
      then d :: h :: t
      else h :: insert_desc d t
  end.

Definition order_desc (l : list Drawing.t) : list Drawing.t :=
  fold_right insert_desc [] l.

(** [from('drawings').select('id, name, created_at, canvas_data')
      .order('created_at', { ascending: false })]: no filter, no range. *)
Definition db_list (net : Net) (d : Database)
  : Settled (Response.t (list Drawing.summary)) :=
  match net with
  | Up => Fulfilled (Response.ok (map Drawing.summary_of (order_desc (drawings d))))
  | Refused e => Fulfilled (Response.failed e)
  | Down e => Rejected e
  end.

(** [from('drawings').select('canvas_data').eq('id', i).single()]: an error
    unless exactly one row matches.  The data is the object
    [{ canvas_data }], given here by its one field. *)
Definition db_get (net : Net) (i : string) (d : Database)
  : Settled (Response.t (option string)) :=
  match net with
  | Up =>
      match filter (has_id i) (drawings d) with
      | [row] => Fulfilled (Response.ok (Drawing.canvas_data row))
      | _ => Fulfilled (Response.failed
               (Error.mk "JSON object requested, multiple (or no) rows returned"))
      end
  | Refused e => Fulfilled (Response.failed e)
  | Down e => Rejected e
  end.

(** [from('drawings').insert(v).select().single()]: [id] is the primary
    key, so a row whose picked id is taken is refused. *)
Definition db_insert (net : Net) (p : Pick) (v : Drawing.values) (d : Database)
  : Settled (Response.t Drawing.t) * Database :=
  match net with
  | Up =>
      if existsb (has_id (pick_id p)) (drawings d)
      then (Fulfilled (Response.failed
              (Error.mk "duplicate key value violates unique constraint")), d)
      else
        let row := Drawing.mk (pick_id p) (Drawing.v_name v) (pick_time p)
                     (Drawing.v_created_by v) (Drawing.v_is_public v)
                     (Drawing.v_canvas_data v) in
        (Fulfilled (Response.ok row),
         mkDatabase (drawings d ++ [row]) (drawing_strokes d))
  | Refused e => (Fulfilled (Response.failed e), d)
  | Down e => (Rejected e, d)
  end.

(** [from('drawings').update({ canvas_data, name }).eq('id', i)]. *)
Definition db_update (net : Net) (i : string) (cd : string) (nm : string)
  (d : Database) : Settled (Response.t unit) * Database :=
  match net with
  | Up =>
      (Fulfilled (Response.mk None None),
       mkDatabase
         (map (fun row =>
                 if has_id i row
                 then Drawing.mk (Drawing.id row) nm (Drawing.created_at row)
                        (Drawing.created_by row) (Drawing.is_public row) (Some cd)
                 else row) (drawings d))
         (drawing_strokes d))
  | Refused e => (Fulfilled (Response.failed e), d)
  | Down e => (Rejected e, d)
  end.

(** [from('drawing_strokes').insert(s)]: no [select], so no data comes
    back. *)
Definition db_append (net : Net) (s : Stroke.t) (d : Database)
  : Settled (Response.t unit) * Database :=
  match net with
  | Up => (Fulfilled (Response.mk None None),
           mkDatabase (drawings d) (drawing_strokes d ++ [s]))
  | Refused e => (Fulfilled (Response.failed e), d)
  | Down e => (Rejected e, d)
  end.

(** What [supabase.auth.signInWithPassword] resolves to: [data.user] and
    [error]. *)
Record AuthResponse : Type := mkAuthResponse {
  auth_user : option User.t;
  auth_error : option Error.t
}.

(* ================================================================= *)
(** ** The component: state, world and effects *)

(** The [useState] variables the handlers below read or write ([users] and
    [darkMode] are touched by none of them). *)
Record State : Type := mkState {
  isDrawing : bool;
  currentColor : string;
  brushSize : Z;
  user : option User.t;
  savedDrawings : list Drawing.summary;
  currentDrawingId : option string;
  isLoading : bool;
  message : string;
  authMode : string;
  email : string;
  password : string;
  showAuthDropdown : bool;
  imageLoaded : bool;
  brightness : JS.number;
  contrast : JS.number
}.

Definition setIsDrawing (v : bool) (s : State) : State :=
  mkState v (currentColor s) (brushSize s) (user s) (savedDrawings s)
    (currentDrawingId s) (isLoading s) (message s) (authMode s) (email s)
    (password s) (showAuthDropdown s) (imageLoaded s) (brightness s) (contrast s).

Definition setCurrentColor (v : string) (s : State) : State :=
  mkState (isDrawing s) v (brushSize s) (user s) (savedDrawings s)
    (currentDrawingId s) (isLoading s) (message s) (authMode s) (email s)
    (password s) (showAuthDropdown s) (imageLoaded s) (brightness s) (contrast s).

Definition setBrushSize (v : Z) (s : State) : State :=
  mkState (isDrawing s) (currentColor s) v (user s) (savedDrawings s)
    (currentDrawingId s) (isLoading s) (message s) (authMode s) (email s)
    (password s) (showAuthDropdown s) (imageLoaded s) (brightness s) (contrast s).

Definition setUser (v : option User.t) (s : State) : State :=
  mkState (isDrawing s) (currentColor s) (brushSize s) v (savedDrawings s)
    (currentDrawingId s) (isLoading s) (message s) (authMode s) (email s)
    (password s) (showAuthDropdown s) (imageLoaded s) (brightness s) (contrast s).

Definition setSavedDrawings (v : list Drawing.summary) (s : State) : State :=
  mkState (isDrawing s) (currentColor s) (brushSize s) (user s) v
    (currentDrawingId s) (isLoading s) (message s) (authMode s) (email s)
    (password s) (showAuthDropdown s) (imageLoaded s) (brightness s) (contrast s).

Definition setCurrentDrawingId (v : option string) (s : State) : State :=
  mkState (isDrawing s) (currentColor s) (brushSize s) (user s) (savedDrawings s)
    v (isLoading s) (message s) (authMode s) (email s)
    (password s) (showAuthDropdown s) (imageLoaded s) (brightness s) (contrast s).

Definition setIsLoading (v : bool) (s : State) : State :=
  mkState (isDrawing s) (currentColor s) (brushSize s) (user s) (savedDrawings s)
    (currentDrawingId s) v (message s) (authMode s) (email s)
    (password s) (showAuthDropdown s) (imageLoaded s) (brightness s) (contrast s).

Definition setMessage (v : string) (s : State) : State :=
  mkState (isDrawing s) (currentColor s) (brushSize s) (user s) (savedDrawings s)
    (currentDrawingId s) (isLoading s) v (authMode s) (email s)
    (password s) (showAuthDropdown s) (imageLoaded s) (brightness s) (contrast s).

Definition setEmail (v : string) (s : State) : State :=
  mkState (isDrawing s) (currentColor s) (brushSize s) (user s) (savedDrawings s)
    (currentDrawingId s) (isLoading s) (message s) (authMode s) v
    (password s) (showAuthDropdown s) (imageLoaded s) (brightness s) (contrast s).

Definition setPassword (v : string) (s : State) : State :=
  mkState (isDrawing s) (currentColor s) (brushSize s) (user s) (savedDrawings s)
    (currentDrawingId s) (isLoading s) (message s) (authMode s) (email s)
    v (showAuthDropdown s) (imageLoaded s) (brightness s) (contrast s).

Definition setShowAuthDropdown (v : bool) (s : State) : State :=
  mkState (isDrawing s) (currentColor s) (brushSize s) (user s) (savedDrawings s)
    (currentDrawingId s) (isLoading s) (message s) (authMode s) (email s)
    (password s) v (imageLoaded s) (brightness s) (contrast s).

Definition setAuthMode (v : string) (s : State) : State :=
  mkState (isDrawing s) (currentColor s) (brushSize s) (user s) (savedDrawings s)
    (currentDrawingId s) (isLoading s) (message s) v (email s)
    (password s) (showAuthDropdown s) (imageLoaded s) (brightness s) (contrast s).

(** The [useState] initial values. *)
Definition initialState : State :=
  mkState false "#000000" 5 None [] None false "" "signin" "" "" false false
    (JS.of_Z 100) (JS.of_Z 100).

(** A request to the backend. *)
Inductive Query : Type :=
| QSignIn (em pw : string)
| QSignOut
| QGetUser
| QListDrawings
| QGetDrawing (i : string)
| QInsertDrawing (v : Drawing.values)
| QUpdateDrawing (i : string) (cd : string) (nm : string)
| QInsertStroke (s : Stroke.t).

(** What a handler does to the outside, in the order it does it: a write
    to the pixel buffer (with the buffer it leaves), a request issued, a
    console diagnostic. *)
Inductive Effect : Type :=
| Paint (after : Bitmap)
| Request (q : Query)
| Console (msg : string).

(** [react] is React's store (the values the next render will bind),
    [canvas] the element behind [canvasRef], [db] the backend tables,
    [images] the [src] of every [Image] whose load or error event is still
    to come, [log] the effects so far. *)
Record World : Type := mkWorld {
  react : State;
  canvas : Canvas;
  db : Database;
  images : list string;
  log : list Effect
}.

(** The render a handler attached to the page was created in: the store
    as it is when the event is dispatched. *)
Definition render (w : World) : State := react w.

(** How a handler's body completes. *)
Inductive Completion (A : Type) : Type :=
| Returned (a : A)
| Thrown (e : Error.t).
Arguments Returned {A} _.
Arguments Thrown {A} _.

Definition M (A : Type) : Type := World -> Completion A * World.

Definition ret {A : Type} (a : A) : M A := fun w => (Returned a, w).

Definition throw {A : Type} (e : Error.t) : M A := fun w => (Thrown e, w).

Definition bind {A B : Type} (m : M A) (k : A -> M B) : M B :=
  fun w =>
    match m w with
    | (Returned a, w') => k a w'
    | (Thrown e, w') => (Thrown e, w')
    end.

(** [try { body } catch (error) { handler }]. *)
Definition try_catch {A : Type} (body : M A) (handler : Error.t -> M A) : M A :=
  fun w =>
    match body w with
    | (Returned a, w') => (Returned a, w')
    | (Thrown e, w') => handler e w'
    end.

Declare Scope js_scope.
Delimit Scope js_scope with js.
Notation "x <- m ;; k" := (bind m (fun x => k))
  (at level 61, m at next level, right associativity) : js_scope.
Notation "m ;; k" := (bind m (fun _ => k))
  (at level 61, right associativity) : js_scope.
Open Scope js_scope.

Definition setState (f : State -> State) : M unit :=
  fun w => (Returned tt,
            mkWorld (f (react w)) (canvas w) (db w) (images w) (log w)).

Definition emit (e : Effect) : M unit :=
  fun w => (Returned tt,
            mkWorld (react w) (canvas w) (db w) (images w) (log w ++ [e])).

(** A write to the pixel buffer. *)
Definition paint (f : Canvas -> Bitmap) : M unit :=
  fun w =>
    let b := f (canvas w) in
    (Returned tt,
     mkWorld (react w) (mkCanvas b (ctx (canvas w))) (db w) (images w)
       (log w ++ [Paint b])).

(** A change of the 2D context's state. *)
Definition withCtx (f : Context2D -> Context2D) : M unit :=
  fun w => (Returned tt,
            mkWorld (react w) (mkCanvas (bitmap (canvas w)) (f (ctx (canvas w))))
              (db w) (images w) (log w)).

(** [await] of a request: the request is issued, the tables change as the
    server decides, and the promise resolves or throws. *)
Definition await {A : Type} (q : Query) (run : Database -> Settled A * Database)
  : M A :=
  fun w =>
    let (s, d) := run (db w) in
    let w' := mkWorld (react w) (canvas w) d (images w) (log w ++ [Request q]) in
    match s with
    | Fulfilled a => (Returned a, w')
    | Rejected e => (Thrown e, w')
    end.

(** Reading a property of [null]. *)
Definition TypeError (prop : string) : Error.t :=
  Error.mk ("Cannot read properties of null (reading '" ++ prop ++ "')").

(* ================================================================= *)
(** ** The handlers *)

(** The pointer position of a mouse event and the canvas's
    [getBoundingClientRect()]. *)
Record MouseEvent : Type := mkMouseEvent { clientX : JS.number; clientY : JS.number }.
Record DOMRect : Type := mkDOMRect { left : JS.number; top : JS.number }.

Definition pointer (e : MouseEvent) (rect : DOMRect) : Point :=
  (PrimFloat.sub (clientX e) (left rect), PrimFloat.sub (clientY e) (top rect)).

Definition clearCanvas : M unit :=
  paint (fun c => clearRect_all (bitmap c)).

Definition loadSavedDrawings (net : Net) : M unit :=
  try_catch
    (resp <- await QListDrawings (fun d => (db_list net d, d)) ;;
     match Response.error resp with
     | Some e => throw e
     | None =>
         setState (setSavedDrawings
                     (match Response.data resp with Some l => l | None => [] end))
     end)
    (fun e => setState (setMessage ("Error loading drawings: " ++ Error.message e))).

(** [now_name] and [now_temp] are what the two [Date.now()] calls return. *)
Definition createNewDrawing (r : State) (net : Net) (p : Pick)
  (now_name now_temp : Z) : M unit :=
  match user r with
  | None => ret tt
  | Some u =>
      try_catch
        (resp <- await
                   (QInsertDrawing
                      (Drawing.mkValues ("Drawing " ++ JS.String_of_Z now_name)
                         true None (User.id u)))
                   (db_insert net p
                      (Drawing.mkValues ("Drawing " ++ JS.String_of_Z now_name)
                         true None (User.id u))) ;;
         match Response.error resp with
         | Some e => throw e
         | None =>
             match Response.data resp with
             | None => throw (TypeError "id")
             | Some newDrawing =>
                 setState (setCurrentDrawingId (Some (Drawing.id newDrawing))) ;;
                 setState (setMessage
                             ("New drawing created! ID: " ++ Drawing.id newDrawing))
             end
         end)
        (fun e =>
           setState (setMessage ("Error creating drawing: " ++ Error.message e)) ;;
           setState (setCurrentDrawingId
                       (Some ("temp-" ++ JS.String_of_Z now_temp)%string)))
  end.

Definition signIn (r : State) (auth : Settled AuthResponse)
  (net_list net_create : Net) (p : Pick) (now_name now_temp : Z) : M unit :=
  setState (setIsLoading true) ;;
  try_catch
    (resp <- await (QSignIn (email r) (password r)) (fun d => (auth, d)) ;;
     match auth_error resp with
     | Some e => throw e
     | None =>
         setState (setUser (auth_user resp)) ;;
         setState (setMessage "Signed in successfully! ðŸŽ‰") ;;
         setState (setEmail "") ;;
         setState (setPassword "") ;;
         setState (setShowAuthDropdown false) ;;
         loadSavedDrawings net_list ;;
         createNewDrawing r net_create p now_name now_temp
     end)
    (fun e => setState (setMessage ("Error signing in: " ++ Error.message e))) ;;
  setState (setIsLoading false).

(** [reply] is what [supabase.auth.signOut()] settles to: its [error]. *)
Definition signOut (reply : Settled (option Error.t)) : M unit :=
  error <- await QSignOut (fun d => (reply, d)) ;;
  match error with
  | Some e => setState (setMessage ("Error signing out: " ++ Error.message e))
  | None =>
      setState (setUser None) ;;
      setState (setSavedDrawings []) ;;
      setState (setCurrentDrawingId None) ;;
      clearCanvas ;;
      setState (setMessage "Signed out successfully")
  end.

(** [s || dflt] on a possibly-null string. *)
Definition or_default (s : option string) (dflt : string) : string :=
  match s with
  | Some a => if JS.truthy s then a else dflt
  | None => dflt
  end.

(** The update-based save; no element of the page calls it. *)
Definition saveDrawingToDb (r : State) (dataURL : string) (name : option string)
  (now : Z) (net_update net_list : Net) : M unit :=
  if JS.truthy (currentDrawingId r) then
    match currentDrawingId r with
    | None => ret tt
    | Some i =>
        try_catch
          (resp <- await
                     (QUpdateDrawing i dataURL
                        (or_default name ("Drawing " ++ JS.String_of_Z now)))
                     (db_update net_update i dataURL
                        (or_default name ("Drawing " ++ JS.String_of_Z now))) ;;
           match Response.error resp with
           | Some e => throw e
           | None =>
               setState (setMessage "Drawing saved to database! ðŸ’¾") ;;
               loadSavedDrawings net_list
           end)
          (fun _ => setState (setMessage "Error saving drawing"))
    end
  else ret tt.

(** [img.src = s] on a fresh [Image]: decoding starts, its event comes
    later. *)
Definition startImage (s : string) : M unit :=
  fun w => (Returned tt,
            mkWorld (react w) (canvas w) (db w) (images w ++ [s]) (log w)).

Definition loadDrawing (drawingId : string) (net : Net) : M unit :=
  try_catch
    (resp <- await (QGetDrawing drawingId) (fun d => (db_get net drawingId d, d)) ;;
     match Response.error resp with
     | Some e => throw e
     | None =>
         match Response.data resp with
         | Some (Some canvas_data) =>
             if JS.truthy (Some canvas_data) then
               startImage canvas_data ;;
               setState (setCurrentDrawingId (Some drawingId)) ;;
               setState (setMessage "Drawing loaded! ðŸŽ¨")
             else ret tt
         | Some None => ret tt
         | None => ret tt
         end
     end)
    (fun _ => setState (setMessage "Error loading drawing")).

(** The [img.onload] closure of [loadDrawing]. *)
Definition img_onload (B : Browser) (img : Bitmap) : M unit :=
  clearCanvas ;;
  paint (fun c => drawImage B (bitmap c) img).

Fixpoint remove_first (s : string) (l : list string) : list string :=
  match l with
  | [] => []
  | h :: t => if String.eqb h s then t else h :: remove_first s t
  end.

(** The event of an image created by [loadDrawing]: [load] runs
    [img.onload]; nothing listens to [error]. *)
Definition image_settles (B : Browser) (src : string) : M unit :=
  fun w =>
    let w' := mkWorld (react w) (canvas w) (db w) (remove_first src (images w))
                (log w) in
    match decode_image B src with
    | Some img => img_onload B img w'
    | None => (Returned tt, w')
    end.

Definition startDrawing (r : State) (e : MouseEvent) (rect : DOMRect) : M unit :=
  match user r with
  | None => setState (setMessage "Please sign in to start drawing!")
  | Some _ =>
      setState (setIsDrawing true) ;;
      withCtx beginPath ;;
      withCtx (moveTo (pointer e rect))
  end.

(** The row [draw] sends to [drawing_strokes]. *)
Definition stroke_row (r : State) (u : User.t) (e : MouseEvent) (rect : DOMRect)
  : Stroke.t :=
  Stroke.mk (currentDrawingId r) (User.id u)
    (JS.Math_round (fst (pointer e rect)))
    (JS.Math_round (snd (pointer e rect)))
    (currentColor r) (brushSize r).

Definition draw (B : Browser) (r : State) (e : MouseEvent) (rect : DOMRect)
  (net : Net) : M unit :=
  if negb (isDrawing r) then ret tt
  else
    match user r with
    | None => ret tt
    | Some u =>
        withCtx (set_strokeStyle (currentColor r)) ;;
        withCtx (set_lineWidth (brushSize r)) ;;
        withCtx (lineTo (pointer e rect)) ;;
        paint (fun c => stroke_raster B (bitmap c) (ctx c)) ;;
        try_catch
          (_ <- await (QInsertStroke (stroke_row r u e rect))
                  (db_append net (stroke_row r u e rect)) ;;
           ret tt)
          (fun _ => ret tt)
    end.

(** [draw] as the older variants of the file have it: the response's error
    is thrown, caught and logged to the console. *)
Definition draw_checked (B : Browser) (r : State) (e : MouseEvent) (rect : DOMRect)
  (net : Net) : M unit :=
  if negb (isDrawing r) then ret tt
  else
    match user r with
    | None => ret tt
    | Some u =>
        withCtx (set_strokeStyle (currentColor r)) ;;
        withCtx (set_lineWidth (brushSize r)) ;;
        withCtx (lineTo (pointer e rect)) ;;
        paint (fun c => stroke_raster B (bitmap c) (ctx c)) ;;
        try_catch
          (resp <- await (QInsertStroke (stroke_row r u e rect))
                     (db_append net (stroke_row r u e rect)) ;;
           match Response.error resp with
           | Some err => throw err
           | None => ret tt
           end)
          (fun _ => emit (Console "Error saving stroke:"))
    end.

Definition stopDrawing : M unit := setState (setIsDrawing false).

(** [answer] is what [prompt] returns ([null] on cancel), [now] what
    [Date.now()] would. *)
Definition saveDrawing (B : Browser) (r : State) (answer : option string)
  (now : Z) (net_insert : Net) (p : Pick) (net_list : Net) : M unit :=
  match user r with
  | None => setState (setMessage "Please sign in first!")
  | Some u =>
      try_catch
        (fun w =>
           let dataURL := toDataURL B (bitmap (canvas w)) in
           let name := or_default answer ("Drawing " ++ JS.String_of_Z now) in
           (resp <- await
                      (QInsertDrawing
                         (Drawing.mkValues name true (Some dataURL) (User.id u)))
                      (db_insert net_insert p
                         (Drawing.mkValues name true (Some dataURL) (User.id u))) ;;
            match Response.error resp with
            | Some e => throw e
            | None =>
                setState (setMessage "Drawing saved successfully! ðŸŽ¨") ;;
                match Response.data resp with
                | None => throw (TypeError "id")
                | Some newDrawing =>
                    setState (setCurrentDrawingId (Some (Drawing.id newDrawing))) ;;
                    loadSavedDrawings net_list
                end
            end) w)
        (fun e => setState (setMessage ("Error saving drawing: " ++ Error.message e)))
  end.

(** One pass of the loop body of [handleAdjust] over a pixel: the three
    brightness stores, then the three contrast stores; alpha is not
    written.  Every store goes through the array's clamp. *)
Definition adjust_pixel (b c : JS.number) (px : Z * Z * Z) : Z * Z * Z :=
  let '(d0, d1, d2) := px in
  let d0 := JS.ToUint8Clamp (JS.Math_min 255%float (PrimFloat.mul (JS.of_Z d0) b)) in
  let d1 := JS.ToUint8Clamp (JS.Math_min 255%float (PrimFloat.mul (JS.of_Z d1) b)) in
  let d2 := JS.ToUint8Clamp (JS.Math_min 255%float (PrimFloat.mul (JS.of_Z d2) b)) in
  let d0 := JS.ToUint8Clamp
              (PrimFloat.add (PrimFloat.mul (PrimFloat.sub (JS.of_Z d0) 128%float) c)
                 128%float) in
  let d1 := JS.ToUint8Clamp
              (PrimFloat.add (PrimFloat.mul (PrimFloat.sub (JS.of_Z d1) 128%float) c)
                 128%float) in
  let d2 := JS.ToUint8Clamp
              (PrimFloat.add (PrimFloat.mul (PrimFloat.sub (JS.of_Z d2) 128%float) c)
                 128%float) in
  (d0, d1, d2).

(** What the two stores into one colour channel amount to: brightness,
    capped at 255 and stored, then contrast around 128 on the stored
    value. *)
Definition adjust_channel (b c : JS.number) (v : Z) : Z :=
  JS.ToUint8Clamp
    (PrimFloat.add
       (PrimFloat.mul
          (PrimFloat.sub
             (JS.of_Z (JS.ToUint8Clamp
                         (JS.Math_min 255%float (PrimFloat.mul (JS.of_Z v) b))))
             128%float)
          c)
       128%float).

(** [for (let i = 0; i < data.length; i += 4)] over the byte array.  The
    data of an [ImageData] holds whole pixels; were the last one cut short,
    the stores past the end would be dropped. *)
Fixpoint adjust_data (b c : JS.number) (d : list Z) : list Z :=
  match d with
  | d0 :: d1 :: d2 :: a :: rest =>
      let '(e0, e1, e2) := adjust_pixel b c (d0, d1, d2) in
      e0 :: e1 :: e2 :: a :: adjust_data b c rest
  | [d0; d1; d2] =>
      let '(e0, e1, e2) := adjust_pixel b c (d0, d1, d2) in [e0; e1; e2]
  | [d0; d1] =>
      let '(e0, e1, _) := adjust_pixel b c (d0, d1, 0) in [e0; e1]
  | [d0] =>
      let '(e0, _, _) := adjust_pixel b c (d0, 0, 0) in [e0]
  | [] => []
  end.

(** What [getImageData] throws for a rectangle without pixels. *)
Definition IndexSizeError : Error.t :=
  Error.mk "The source width is 0.".

Definition getImageData_error (sw sh : Z) : option Error.t :=
  if sw =? 0 then Some IndexSizeError
  else if sh =? 0 then Some (Error.mk "The source height is 0.")
  else None.

(** What [getImageData] reads back after [putImageData] wrote a pixel.  The
    backing store of a canvas holds its colours premultiplied by alpha:
    that is exact for an opaque pixel, and otherwise loses precision in a
    way left to the browser.  [q a v] is the byte read back for the colour
    byte [v] written under alpha [a]; alpha itself is kept. *)
Definition read_back (q : Z -> Z -> Byte.byte) (a v : Z) : Z :=
  if a =? 255 then v else Z.of_N (Byte.to_N (q a v)).

Fixpoint read_back_data (q : Z -> Z -> Byte.byte) (d : list Z) : list Z :=
  match d with
  | d0 :: d1 :: d2 :: a :: rest =>
      read_back q a d0 :: read_back q a d1 :: read_back q a d2 :: a
      :: read_back_data q rest
  | _ => d
  end.

(** Every whole pixel of the data is opaque. *)
Fixpoint opaque (d : list Z) : bool :=
  match d with
  | _ :: _ :: _ :: a :: rest => (a =? 255) && opaque rest
  | _ => true
  end.

(** [handleAdjust].  [getImageData] of the whole canvas throws when the
    canvas has no pixels, and the handler has no [try]; otherwise the loop
    runs over the bytes read and [putImageData] writes them back. *)
Definition handleAdjust (q : Z -> Z -> Byte.byte) (r : State) : M unit :=
  fun w =>
    match getImageData_error (width (bitmap (canvas w)))
            (height (bitmap (canvas w))) with
    | Some e => (Thrown e, w)
    | None =>
        paint (fun cv =>
                 let b := PrimFloat.div (brightness r) 100%float in
                 let c := PrimFloat.div (contrast r) 100%float in
                 mkBitmap (width (bitmap cv)) (height (bitmap cv))
                   (read_back_data q (adjust_data b c (data (bitmap cv))))) w
    end.

(* ================================================================= *)
(** ** The page *)

(** [fetchUser], run once by the mount effect, hence from the first
    render.  [reply] is what [supabase.auth.getUser()] settles to: [data]
    (null, or an object with its [user]) and [error].  The two calls after
    [setUser] are not awaited. *)
Definition fetchUser (r : State) (reply : Settled (Response.t (option User.t)))
  (net_list net_create : Net) (p : Pick) (now_name now_temp : Z) : M unit :=
  resp <- await QGetUser (fun d => (reply, d)) ;;
  match Response.data resp with
  | Some (Some u) =>
      setState (setUser (Some u)) ;;
      loadSavedDrawings net_list ;;
      createNewDrawing r net_create p now_name now_temp
  | Some None => ret tt
  | None => ret tt
  end.

(** What the user and the browser can make happen, each with what the
    outside answers to it.  The image tools are left out. *)
Inductive Event : Type :=
| SignInTab
| TypeEmail (s : string)
| TypePassword (s : string)
| SignInClick (auth : Settled AuthResponse) (net_list net_create : Net)
    (p : Pick) (now_name now_temp : Z)
| SignOutClick (reply : Settled (option Error.t))
| PickColor (c : string)
| SlideBrush (n : Z)
| MouseDown (e : MouseEvent) (rect : DOMRect)
| MouseMove (e : MouseEvent) (rect : DOMRect) (net : Net)
| MouseUp
| SaveClick (answer : option string) (now : Z) (net_insert : Net) (p : Pick)
    (net_list : Net)
| DrawingClick (i : string) (net : Net)
| ImageSettled (src : string).

Definition signed (r : State) : bool :=
  match user r with Some _ => true | None => false end.

(** Whether the page rendered from the store of [w] has the element the
    event needs: the sign-in form is rendered only without an identity (its
    button inside the open dropdown in sign-in mode, disabled while loading),
    the sign-out button and the saved drawings only with one. *)
Definition offered (w : World) (ev : Event) : bool :=
  let r := render w in
  match ev with
  | SignInTab => negb (signed r)
  | TypeEmail _ => negb (signed r) && showAuthDropdown r
  | TypePassword _ => negb (signed r) && showAuthDropdown r
  | SignInClick _ _ _ _ _ _ =>
      negb (signed r) && showAuthDropdown r
      && String.eqb (authMode r) "signin" && negb (isLoading r)
  | SignOutClick _ => signed r
  | PickColor _ => true
  | SlideBrush _ => true
  | MouseDown _ _ => true
  | MouseMove _ _ _ => true
  | MouseUp => true
  | SaveClick _ _ _ _ _ => true
  | DrawingClick i _ =>
      signed r && existsb (fun s => String.eqb (Drawing.s_id s) i) (savedDrawings r)
  | ImageSettled src => existsb (String.eqb src) (images w)
  end.

(** The handler of the current render runs on the live world. *)
Definition dispatch (B : Browser) (ev : Event) : M unit :=
  fun w =>
    let r := render w in
    match ev with
    | SignInTab =>
        (setState (setAuthMode "signin") ;;
         setState (fun s =>
                     setShowAuthDropdown
                       (negb (String.eqb (authMode r) "signin")
                        || negb (showAuthDropdown s)) s)) w
    | TypeEmail s => setState (setEmail s) w
    | TypePassword s => setState (setPassword s) w
    | SignInClick auth net_list net_create p now_name now_temp =>
        signIn r auth net_list net_create p now_name now_temp w
    | SignOutClick reply => signOut reply w
    | PickColor c => setState (setCurrentColor c) w
    | SlideBrush n => setState (setBrushSize n) w
    | MouseDown e rect => startDrawing r e rect w
    | MouseMove e rect net => draw B r e rect net w
    | MouseUp => stopDrawing w
    | SaveClick answer now net_insert p net_list =>
        saveDrawing B r answer now net_insert p net_list w
    | DrawingClick i net => loadDrawing i net w
    | ImageSettled src => image_settles B src w
    end.

(** A session: the events the page offers, one after the other, each
    handled to its end before the next. *)
Fixpoint play (B : Browser) (evs : list Event) (w : World) : World :=
  match evs with
  | [] => w
  | ev :: rest =>
      if offered w ev then play B rest (snd (dispatch B ev w))
      else play B rest w
  end.

(** The insert of [createNewDrawing] is the one without a snapshot. *)
Definition is_creation (ef : Effect) : bool :=
  match ef with
  | Request (QInsertDrawing v) =>
      match Drawing.v_canvas_data v with None => true | Some _ => false end
  | _ => false
  end.

(* ================================================================= *)
(** ** Fixtures for the examples *)

(** A stand-in browser: its brush floods the surface as soon as the path
    has a segment, its codec writes the bytes out behind a fixed prefix, and
    it draws an image by overwriting the leading bytes. *)
Definition flood (b : Bitmap) : Bitmap :=
  mkBitmap (width b) (height b) (map (fun _ => 255) (data b)).

Definition has_segment (p : list (list Point)) : bool :=
  existsb (fun s => (2 <=? List.length s)%nat) p.

Definition bytes_to_string (l : list Z) : string :=
  string_of_list_ascii (map (fun z => ascii_of_nat (Z.to_nat z)) l).

Definition string_to_bytes (s : string) : list Z :=
  map (fun a => Z.of_nat (nat_of_ascii a)) (list_ascii_of_string s).

Definition demo_prefix : string := "data:image/png;base64,".

Definition demo_decode (s : string) : option Bitmap :=
  if String.prefix demo_prefix s then
    match string_to_bytes (String.substring (String.length demo_prefix)
                             (String.length s) s) with
    | w :: h :: d => Some (mkBitmap w h d)
    | _ => None
    end
  else None.

Definition demo_browser : Browser :=
  mkBrowser
    (fun b c => if has_segment (path c) then flood b else b)
    (fun b => String.append demo_prefix
                (bytes_to_string (width b :: height b :: data b)))
    demo_decode
    (fun dst img =>
       mkBitmap (width dst) (height dst)
         (firstn (List.length (data dst))
            (data img ++ skipn (List.length (data img)) (data dst)))).

Definition alice : User.t := User.mk "u-alice" "alice@example.com".

Definition red_pixel : Bitmap := mkBitmap 1 1 [255; 0; 0; 255].

Definition demo_canvas : Canvas :=
  mkCanvas red_pixel (mkContext2D "round" "round" "#000000" 1 []).

Definition sketch : Drawing.t := Drawing.mk "d1" "Sketch" 5 "u-alice" true None.

Definition doodle : Drawing.t :=
  Drawing.mk "d2" "Doodle" 5 "u-bob" true (Some "not an image").

Definition demo_db : Database := mkDatabase [sketch; doodle] [].

Definition signed_out : State := initialState.

Definition signed_in : State := setUser (Some alice) initialState.

Definition demo_world (s : State) : World := mkWorld s demo_canvas demo_db [] [].

(** The values a [Uint8ClampedArray] holds. *)
Definition is_byte (v : Z) : Prop := 0 <= v <= 255.

(** A stored snapshot that decodes, and a world whose table holds it. *)
Definition png_of_red_pixel : string := toDataURL demo_browser red_pixel.

Definition pixel_row : Drawing.t :=
  Drawing.mk "d7" "Pixel" 3 "u-alice" true (Some png_of_red_pixel).

Definition gallery : Database := mkDatabase [pixel_row] [].

Definition gallery_world : World :=
  mkWorld signed_in (mkCanvas (blank 1 1) (ctx demo_canvas)) gallery [] [].

(** The end-to-end example of the specification: a stroke to (10, 10) in
    colour [#ef4444] with a brush of 5. *)
Definition red_brush : State :=
  setCurrentDrawingId (Some "d1")
    (setIsDrawing true (setBrushSize 5 (setCurrentColor "#ef4444" signed_in))).

Definition at_10_10 : MouseEvent := mkMouseEvent 10%float 10%float.

Definition origin : DOMRect := mkDOMRect 0%float 0%float.

(* ================================================================= *)
(** ** Predicates of the statements *)

(** The order of a listing, on rows and on their summaries, and whose a
    listed drawing is. *)
Definition newer_or_equal (a b : Drawing.t) : Prop :=
  Drawing.created_at b <= Drawing.created_at a.

Definition strictly_newer (a b : Drawing.summary) : Prop :=
  Drawing.s_created_at b < Drawing.s_created_at a.

Definition owned_by (u : User.t) (d : Database) (s : Drawing.summary) : Prop :=
  exists row, In row (drawings d) /\
              Drawing.id row = Drawing.s_id s /\
              Drawing.created_by row = User.id u.

(* ================================================================= *)
(** ** The rest of the component *)

(** A well-formed pixel buffer: whole pixels, as many as the dimensions
    say. *)
Definition wf_bitmap (b : Bitmap) : Prop :=
  0 <= width b /\ 0 <= height b /\
  List.length (data b) = Z.to_nat (4 * width b * height b) /\
  Forall is_byte (data b).

(** The state of a 2D context after a reset: what a new context has, and
    what assigning [canvas.width] or [canvas.height] brings back. *)
Definition default_context : Context2D :=
  mkContext2D "butt" "miter" "#000000" 1 [].

(** The canvas part of the mount effect: the buffer takes the element's
    layout size ([offsetWidth], [offsetHeight]), which resets the context,
    and the caps and joins are made round. *)
Definition mountCanvas (offsetWidth offsetHeight : Z) : M unit :=
  fun w =>
    (Returned tt,
     mkWorld (react w)
       (mkCanvas (blank offsetWidth offsetHeight)
          (mkContext2D "round" "round" (strokeStyle default_context)
             (lineWidth default_context) (path default_context)))
       (db w) (images w) (log w ++ [Paint (blank offsetWidth offsetHeight)])).

(** An awaited call to the identity provider that the log keeps no entry
    of. *)
Definition settle {A : Type} (s : Settled A) : M A :=
  fun w =>
    match s with
    | Fulfilled a => (Returned a, w)
    | Rejected e => (Thrown e, w)
    end.

(** [reply] is what [supabase.auth.signUp] settles to. *)
Definition signUp (r : State) (reply : Settled AuthResponse) : M unit :=
  setState (setIsLoading true) ;;
  try_catch
    (resp <- settle reply ;;
     match auth_error resp with
     | Some e => throw e
     | None =>
         setState (setMessage
           "Sign up successful! Please check your email to confirm your account, then sign in.") ;;
         setState (setAuthMode "signin") ;;
         setState (setEmail "") ;;
         setState (setPassword "") ;;
         setState (setShowAuthDropdown false)
     end)
    (fun e => setState (setMessage ("Error signing up: " ++ Error.message e))) ;;
  setState (setIsLoading false).

(** Channel [k] of the pixel at [(x, y)]; transparent black outside the
    buffer. *)
Definition byte_at (b : Bitmap) (x y : Z) (k : nat) : Z :=
  if (0 <=? x) && (x <? width b) && (0 <=? y) && (y <? height b)
  then nth (4 * Z.to_nat (y * width b + x) + k) (data b) 0
  else 0.

Definition pixel_at (b : Bitmap) (x y : Z) : list Z :=
  [byte_at b x y 0; byte_at b x y 1; byte_at b x y 2; byte_at b x y 3].

(** The integers [0 .. n-1]. *)
Definition range (n : Z) : list Z := map Z.of_nat (seq 0 (Z.to_nat n)).

(** [ctx.getImageData(sx, sy, sw, sh)] for positive [sw] and [sh]: the
    pixels of the rectangle, row by row. *)
Definition getImageData (b : Bitmap) (sx sy sw sh : Z) : Bitmap :=
  mkBitmap sw sh
    (flat_map (fun y => flat_map (fun x => pixel_at b (sx + x) (sy + y)) (range sw))
       (range sh)).



(** What [drawImage] throws for a source canvas with no pixels. *)
Definition InvalidStateError : Error.t :=
  Error.mk "The image argument is a canvas element with a width or height of 0.".

(** [handleRotate].  The temporary canvas, as wide as the canvas is high,
    receives the canvas at its origin (a canvas without pixels is refused as
    a source); assigning the canvas its new width and height empties it and
    resets its context; [rotated] stands for the bytes the transformed
    [drawImage] of the temporary canvas leaves.  The handler has no [try]. *)
Definition handleRotate (rotated : Bitmap -> Bitmap -> list Z) : M unit :=
  fun w =>
    let b := bitmap (canvas w) in
    if (width b =? 0) || (height b =? 0) then (Thrown InvalidStateError, w)
    else
      let tempCanvas := getImageData b 0 0 (height b) (width b) in
      let resized := blank (width tempCanvas) (height tempCanvas) in
      let drawn :=
        mkBitmap (width resized) (height resized)
          (rotated (clearRect_all resized) tempCanvas) in
      (Returned tt,
       mkWorld (react w) (mkCanvas drawn default_context) (db w) (images w)
         (log w ++ [Paint resized; Paint (clearRect_all resized); Paint drawn])).

Definition setImageLoaded (v : bool) (s : State) : State :=
  mkState (isDrawing s) (currentColor s) (brushSize s) (user s) (savedDrawings s)
    (currentDrawingId s) (isLoading s) (message s) (authMode s) (email s)
    (password s) (showAuthDropdown s) v (brightness s) (contrast s).

Definition setBrightness (v : JS.number) (s : State) : State :=
  mkState (isDrawing s) (currentColor s) (brushSize s) (user s) (savedDrawings s)
    (currentDrawingId s) (isLoading s) (message s) (authMode s) (email s)
    (password s) (showAuthDropdown s) (imageLoaded s) v (contrast s).

Definition setContrast (v : JS.number) (s : State) : State :=
  mkState (isDrawing s) (currentColor s) (brushSize s) (user s) (savedDrawings s)
    (currentDrawingId s) (isLoading s) (message s) (authMode s) (email s)
    (password s) (showAuthDropdown s) (imageLoaded s) (brightness s) v.

(** [handleResetImage]. *)
Definition handleResetImage : M unit :=
  setState (setBrightness 100%float) ;;
  setState (setContrast 100%float) ;;
  setState (setImageLoaded false) ;;
  clearCanvas.

(** [handleImageUpload].  [file] is what the file input holds after the
    change ([None]: no file chosen) given by what [FileReader.readAsDataURL]
    yields for it; [scaled] stands for
    [ctx.drawImage(img, 0, 0, canvas.width, canvas.height)].  The work is done
    in the [onload] of the image: a file that does not decode ends there. *)
Definition handleImageUpload (B : Browser) (scaled : Bitmap -> Bitmap -> Bitmap)
  (file : option string) : M unit :=
  match file with
  | None => ret tt
  | Some dataURL =>
      match decode_image B dataURL with
      | None => ret tt
      | Some img =>
          clearCanvas ;;
          paint (fun c => scaled (bitmap c) img) ;;
          setState (setImageLoaded true) ;;
          setState (setBrightness 100%float) ;;
          setState (setContrast 100%float)
      end
  end.

(** [downloadDrawing]: the snapshot becomes the [href] of a link that is
    clicked; returned here. *)
Definition downloadDrawing (B : Browser) : M string :=
  fun w => (Returned (toDataURL B (bitmap (canvas w))), w).

(** The pointer moves of one stroke, each with what becomes of its
    append. *)
Definition pointer_moves (rect : DOMRect) (ms : list (MouseEvent * Net))
  : list Event :=
  map (fun m => MouseMove (fst m) rect (snd m)) ms.

Definition finite_point (p : Point) : bool :=
  JS.isFinite (fst p) && JS.isFinite (snd p).

Definition delivered (m : MouseEvent * Net) : bool :=
  match snd m with
  | Up => true
  | Refused _ => false
  | Down _ => false
  end.

(** The sign-in form, open, with an address typed in. *)
Definition form_world : World :=
  mkWorld (setEmail "alice@example.com" (setShowAuthDropdown true initialState))
    demo_canvas demo_db [] [].

(** A table with two snapshots that decode. *)
Definition green_pixel : Bitmap := mkBitmap 1 1 [0; 255; 0; 255].

Definition png_of_green_pixel : string := toDataURL demo_browser green_pixel.

Definition green_row : Drawing.t :=
  Drawing.mk "d8" "Green" 4 "u-bob" true (Some png_of_green_pixel).

Definition exhibition_world : World :=
  mkWorld signed_in (mkCanvas (blank 1 1) (ctx demo_canvas))
    (mkDatabase [pixel_row; green_row] []) [] [].

(** A canvas three pixels wide and one high: red, blue, green. *)
Definition strip : Bitmap :=
  mkBitmap 3 1 [255; 0; 0; 255; 0; 0; 255; 255; 0; 255; 0; 255].

Definition strip_world : World :=
  mkWorld signed_in (mkCanvas strip (ctx demo_canvas)) demo_db [] [].

(** A canvas whose element has no size. *)
Definition collapsed_world : World :=
  mkWorld signed_in (mkCanvas (blank 0 0) (ctx demo_canvas)) demo_db [] [].

(** A stand-in for the transformed [drawImage] of [handleRotate]. *)
Definition demo_rotated (dst src : Bitmap) : list Z :=
  firstn (List.length (data dst)) (data src ++ data dst).

Definition at_12_10 : MouseEvent := mkMouseEvent 12%float 10%float.

Definition at_14_11 : MouseEvent := mkMouseEvent 14%float 11%float.

(** A dark opaque pixel, and the sliders at their two far ends. *)
Definition dark_pixel : Bitmap := mkBitmap 1 1 [10; 10; 10; 255].

Definition dark_world : World :=
  mkWorld signed_in (mkCanvas dark_pixel (ctx demo_canvas)) demo_db [] [].

Definition dim_and_sharp : State :=
  setContrast 150%float (setBrightness 50%float signed_in).

(** A stand-in for the canvas's store: premultiplied and back, both
    truncated. *)
Definition demo_read_back (a v : Z) : Byte.byte :=
  match Byte.of_N (Z.to_N (if a =? 0 then 0 else (v * a / 255) * 255 / a)) with
  | Some x => x
  | None => Byte.x00
  end.

(** The channel value as the specification words it: the brightness
    product bounded above only, then the rescaling around 128, with no store
    in between or after. *)
Definition clamped_above_only (b c : JS.number) (v : Z) : JS.number :=
  PrimFloat.add
    (PrimFloat.mul
       (PrimFloat.sub (JS.Math_min 255%float (PrimFloat.mul (JS.of_Z v) b))
          128%float)
       c)
    128%float.

(** A click on Sign In that the provider answers with a user. *)
Definition signs_in (ev : Event) : bool :=
  match ev with
  | SignInClick (Fulfilled resp) _ _ _ _ _ =>
      match auth_error resp, auth_user resp with
      | None, Some _ => true
      | _, _ => false
      end
  | _ => false
  end.

(* ================================================================= *)
(** ** Properties *)

Ltac run_js :=
  cbv beta iota zeta delta
    [bind ret throw try_catch await setState emit paint withCtx startImage
     clearCanvas loadSavedDrawings fst snd].

(** *** The listing *)

Lemma insert_desc_perm (d : Drawing.t) (l : list Drawing.t) :
  Permutation (insert_desc d l) (d :: l).
Proof.
  induction l as [|h t IH]; simpl.
  - apply Permutation_refl.
  - destruct (Drawing.created_at h <? Drawing.created_at d).
    + apply Permutation_refl.
    + apply perm_trans with (h :: d :: t).
      * now apply perm_skip.
      * apply perm_swap.
Qed.

Lemma order_desc_perm (l : list Drawing.t) : Permutation (order_desc l) l.
Proof.
  induction l as [|h t IH]; simpl.
  - apply perm_nil.
  - apply perm_trans with (h :: order_desc t).
    + apply insert_desc_perm.
    + now apply perm_skip.
Qed.

Lemma insert_desc_hd (d x : Drawing.t) (l : list Drawing.t) :
  newer_or_equal x d -> HdRel newer_or_equal x l ->
  HdRel newer_or_equal x (insert_desc d l).
Proof.
  intros Hd Hl. destruct l as [|h t]; simpl.
  - now constructor.
  - destruct (Drawing.created_at h <? Drawing.created_at d).
    + now constructor.
    + constructor. now inversion Hl.
Qed.

Lemma insert_desc_sorted (d : Drawing.t) (l : list Drawing.t) :
  Sorted newer_or_equal l -> Sorted newer_or_equal (insert_desc d l).
Proof.
  induction l as [|h t IH]; simpl; intros Hs.
  - repeat constructor.
  - destruct (Drawing.created_at h <? Drawing.created_at d) eqn:E.
    + constructor; [assumption|]. constructor.
      unfold newer_or_equal. apply Z.ltb_lt in E. lia.
    + inversion Hs as [|? ? Ht Hh]; subst. constructor.
      * now apply IH.
      * apply insert_desc_hd; [|assumption].
        unfold newer_or_equal. apply Z.ltb_ge in E. lia.
Qed.

Lemma order_desc_sorted (l : list Drawing.t) : Sorted newer_or_equal (order_desc l).
Proof.
  induction l as [|h t IH]; simpl.
  - constructor.
  - now apply insert_desc_sorted.
Qed.

Lemma order_desc_strongly_sorted (l : list Drawing.t) :
  StronglySorted newer_or_equal (order_desc l).
Proof.
  apply Sorted_StronglySorted; [|apply order_desc_sorted].
  intros a b c Hab Hbc. unfold newer_or_equal in *. lia.
Qed.

Lemma filter_has_id_app_fresh (i : string) (l : list Drawing.t) (row : Drawing.t) :
  existsb (has_id (Drawing.id row)) l = false ->
  In i (map Drawing.id l) ->
  filter (has_id i) (l ++ [row]) = filter (has_id i) l.
Proof.
  intros Hfresh Hin. rewrite filter_app. simpl.
  destruct (has_id i row) eqn:E; [|apply app_nil_r].
  exfalso. unfold has_id in E. apply String.eqb_eq in E. subst i.
  apply in_map_iff in Hin. destruct Hin as [d [Hid Hd]].
  assert (existsb (has_id (Drawing.id row)) l = true) as Hex.
  { apply existsb_exists. exists d. split; [assumption|].
    unfold has_id. now apply String.eqb_eq. }
  congruence.
Qed.

(** *** saveDrawing *)

(** C1. Every [saveDrawing] run from a render with an identity issues one
    insert carrying the exported snapshot of the canvas, and no update;
    whatever the backend answers, every stored row is still there as it was
    (so also the row of the current drawing).  When the insert succeeds the
    table has gained exactly one row, under a key no row had, the new key is
    the current-Drawing id, the list request follows the insert, and its
    answer is the listing of the grown table. *)
Theorem saveDrawing_inserts_new_row :
  forall (B : Browser) (r : State) (u : User.t) (answer : option string)
         (now : Z) (net_insert : Net) (p : Pick) (net_list : Net) (w : World),
    user r = Some u ->
    let w' := snd (saveDrawing B r answer now net_insert p net_list w) in
    let v := Drawing.mkValues
               (or_default answer ("Drawing " ++ JS.String_of_Z now))
               true (Some (toDataURL B (bitmap (canvas w)))) (User.id u) in
    let row := Drawing.mk (pick_id p) (Drawing.v_name v) (pick_time p)
                 (User.id u) true (Some (toDataURL B (bitmap (canvas w)))) in
    fst (saveDrawing B r answer now net_insert p net_list w) = Returned tt /\
    (log w' = log w ++ [Request (QInsertDrawing v)] \/
     log w' = log w ++ [Request (QInsertDrawing v); Request QListDrawings]) /\
    (forall i, In i (map Drawing.id (drawings (db w))) ->
       filter (has_id i) (drawings (db w')) = filter (has_id i) (drawings (db w))) /\
    canvas w' = canvas w /\
    (net_insert = Up ->
     existsb (has_id (pick_id p)) (drawings (db w)) = false ->
     drawings (db w') = drawings (db w) ++ [row] /\
     currentDrawingId (react w') = Some (pick_id p) /\
     log w' = log w ++ [Request (QInsertDrawing v); Request QListDrawings] /\
     (net_list = Up ->
      savedDrawings (react w') =
        map Drawing.summary_of (order_desc (drawings (db w) ++ [row])))).
Proof.
  intros B r u answer now net_insert p net_list w Hu. cbv zeta.
  unfold saveDrawing. rewrite Hu. run_js.
  destruct net_insert as [|e|e]; cbn [db_insert].
  - destruct (existsb (has_id (pick_id p)) (drawings (db w))) eqn:Hfresh; cbn.
    + repeat split; auto; discriminate.
    + destruct net_list as [|e|e]; cbn; rewrite <- ?app_assoc; cbn;
        repeat split; auto; try discriminate;
        intros i Hi; now apply filter_has_id_app_fresh.
  - cbn. repeat split; auto; discriminate.
  - cbn. repeat split; auto; discriminate.
Qed.

(** *** signIn *)

(** C4, as amended. On every successful sign-in the identity is stored and
    the list request follows the sign-in request; answered, it yields every
    row of the table, whoever created it, newest first with rows of equal
    timestamp next to each other, and that becomes the Drawing list. *)
Theorem signIn_loads_every_drawing :
  forall (r : State) (u : User.t) (net_create : Net) (p : Pick)
         (now_name now_temp : Z) (w : World),
    let run := signIn r (Fulfilled (mkAuthResponse (Some u) None)) Up
                 net_create p now_name now_temp w in
    fst run = Returned tt /\
    user (react (snd run)) = Some u /\
    savedDrawings (react (snd run)) =
      map Drawing.summary_of (order_desc (drawings (db w))) /\
    Permutation (order_desc (drawings (db w))) (drawings (db w)) /\
    StronglySorted newer_or_equal (order_desc (drawings (db w))) /\
    exists rest,
      log (snd run) =
        log w ++ Request (QSignIn (email r) (password r))
                 :: Request QListDrawings :: rest.
Proof.
  intros r u net_create p now_name now_temp w. cbv zeta.
  split; [|split; [|split; [|split; [apply order_desc_perm|
                                     split; [apply order_desc_strongly_sorted|]]]]];
    unfold signIn, createNewDrawing; run_js;
    destruct (user r) as [u0|]; run_js; cbn;
    try reflexivity;
    try (rewrite <- !app_assoc; cbn; eexists; reflexivity);
    destruct net_create as [|e|e]; cbn;
    try destruct (existsb (has_id (pick_id p)) (drawings (db w))); cbn;
    try reflexivity;
    rewrite <- !app_assoc; cbn; eexists; reflexivity.
Qed.

(** C4, the claim as stated fails: alice signs in from the signed-out page
    while the table holds two rows of equal timestamp, one of them bob's.
    The list she gets is not strictly descending and is not hers alone, and
    no drawing has been created: the table is as it was and no drawing is
    current. *)
Lemma signIn_counterexample :
  let w := demo_world signed_out in
  let run := signIn (render w) (Fulfilled (mkAuthResponse (Some alice) None))
               Up Up (mkPick "d3" 9) 100 101 w in
  fst run = Returned tt /\
  user (react (snd run)) = Some alice /\
  ~ StronglySorted strictly_newer (savedDrawings (react (snd run))) /\
  ~ Forall (owned_by alice (db w)) (savedDrawings (react (snd run))) /\
  drawings (db (snd run)) = drawings (db w) /\
  currentDrawingId (react (snd run)) = None.
Proof.
  cbv zeta. repeat split.
  - intros H. vm_compute in H.
    inversion H as [|a l Hl Hf]; subst.
    inversion Hf as [|b l' Hb Hf']; subst.
    cbv in Hb. discriminate Hb.
  - intros H. vm_compute in H.
    inversion H as [|a l Ho Hf]; subst.
    destruct Ho as [row [Hin [Hid Hby]]].
    cbn in Hin. destruct Hin as [Hr|[Hr|[]]]; subst row; cbn in *; discriminate.
Qed.

(** The guard of [createNewDrawing] reads the [user] of the render
    [signIn] was created in.  From a render with no identity (the only ones
    that show the sign-in form) the call issues no insert and sets no current
    drawing, whatever the provider and the backend answer. *)
Lemma signIn_stale_user_creates_nothing :
  forall (r : State) (auth : Settled AuthResponse) (net_list net_create : Net)
         (p : Pick) (now_name now_temp : Z) (w : World),
    user r = None ->
    createNewDrawing r net_create p now_name now_temp w = (Returned tt, w) /\
    let w' := snd (signIn r auth net_list net_create p now_name now_temp w) in
    db w' = db w /\
    currentDrawingId (react w') = currentDrawingId (react w).
Proof.
  intros r auth net_list net_create p now_name now_temp w Hu. cbv zeta.
  unfold signIn, createNewDrawing. rewrite Hu. run_js.
  split; [reflexivity|].
  destruct auth as [[au [ae|]]|e]; cbn; [auto| |auto].
  destruct net_list as [|e|e]; cbn; auto.
Qed.

(** *** draw and startDrawing *)

(** [draw] returns normally from every render, in every world, whatever the
    backend does with the append. *)
Lemma draw_returns :
  forall (B : Browser) (r : State) (e : MouseEvent) (rect : DOMRect) (net : Net)
         (w : World),
    fst (draw B r e rect net w) = Returned tt.
Proof.
  intros B r e rect net w. unfold draw.
  destruct (isDrawing r); cbn; [|reflexivity].
  destruct (user r) as [u|]; [|reflexivity].
  run_js. destruct net; reflexivity.
Qed.

(** X26. The older variants' [draw] leaves the same store, canvas and tables
    behind as [draw] does, and returns normally too; it differs by its
    console line. *)
Lemma draw_checked_agrees :
  forall (B : Browser) (r : State) (e : MouseEvent) (rect : DOMRect) (net : Net)
         (w : World),
    fst (draw_checked B r e rect net w) = Returned tt /\
    react (snd (draw_checked B r e rect net w)) = react (snd (draw B r e rect net w)) /\
    canvas (snd (draw_checked B r e rect net w)) = canvas (snd (draw B r e rect net w)) /\
    db (snd (draw_checked B r e rect net w)) = db (snd (draw B r e rect net w)).
Proof.
  intros B r e rect net w. unfold draw_checked, draw.
  destruct (isDrawing r); cbn; [|auto].
  destruct (user r) as [u|]; [|auto].
  run_js. destruct net; cbn; auto.
Qed.

(** C5. While a stroke is in progress and an identity is current, a
    pointer-move sample strokes the path into the pixel buffer and only then
    issues the append; whatever becomes of the append, the handler returns
    normally, the buffer holds the stroked path, and React's store, status
    message included, is as it was. *)
Theorem draw_paints_then_appends :
  forall (B : Browser) (r : State) (u : User.t) (e : MouseEvent) (rect : DOMRect)
         (net : Net) (w : World),
    isDrawing r = true ->
    user r = Some u ->
    let run := draw B r e rect net w in
    let c := lineTo (pointer e rect)
               (set_lineWidth (brushSize r)
                  (set_strokeStyle (currentColor r) (ctx (canvas w)))) in
    fst run = Returned tt /\
    canvas (snd run) = mkCanvas (stroke_raster B (bitmap (canvas w)) c) c /\
    log (snd run) =
      log w ++ [Paint (stroke_raster B (bitmap (canvas w)) c);
                Request (QInsertStroke (stroke_row r u e rect))] /\
    react (snd run) = react w /\
    message (react (snd run)) = message (react w).
Proof.
  intros B r u e rect net w Hd Hu. cbv zeta.
  unfold draw. rewrite Hd, Hu. run_js.
  destruct net as [|err|err]; cbn; rewrite <- !app_assoc; cbn; auto 6.
Qed.

(** C8. Such a sample issues exactly one request, the append of one row:
    the drawing id, colour and brush size of the render, the identity's id,
    and the pointer position relative to the canvas put through
    [Math.round].  A delivered append adds that row to the Stroke Log and
    nothing else; an undelivered one leaves the log as it was. *)
Theorem draw_appends_one_stroke :
  forall (B : Browser) (r : State) (u : User.t) (e : MouseEvent) (rect : DOMRect)
         (net : Net) (w : World),
    isDrawing r = true ->
    user r = Some u ->
    let w' := snd (draw B r e rect net w) in
    let s := Stroke.mk (currentDrawingId r) (User.id u)
               (JS.Math_round (PrimFloat.sub (clientX e) (left rect)))
               (JS.Math_round (PrimFloat.sub (clientY e) (top rect)))
               (currentColor r) (brushSize r) in
    (exists b, log w' = log w ++ [Paint b; Request (QInsertStroke s)]) /\
    drawing_strokes (db w') =
      match net with
      | Up => drawing_strokes (db w) ++ [s]
      | _ => drawing_strokes (db w)
      end /\
    drawings (db w') = drawings (db w).
Proof.
  intros B r u e rect net w Hd Hu. cbv zeta.
  unfold draw. rewrite Hd, Hu. run_js.
  destruct net as [|err|err]; cbn; rewrite <- !app_assoc; cbn;
    (split; [eexists; reflexivity|split; reflexivity]).
Qed.

(** [Math.round] of a finite number is an integer, and the nearest one:
    for the number [n * 2^e] with [e < 0] the result [k] has
    [k - 1/2 <= n * 2^e < k + 1/2]; with [0 <= e] the number is itself an
    integer and is returned. *)
Lemma Math_round_nearest :
  forall (x : JS.number) (n e : Z),
    JS.dyadic x = Some (n, e) ->
    exists k, JS.Math_round x = Some k /\
              if 0 <=? e then k = n * 2 ^ e
              else (2 * k - 1) * 2 ^ (- e - 1) <= n < (2 * k + 1) * 2 ^ (- e - 1).
Proof.
  intros x n e H. unfold JS.Math_round. rewrite H.
  eexists. split; [reflexivity|].
  destruct (0 <=? e) eqn:E; [reflexivity|].
  apply Z.leb_gt in E.
  rewrite Z.shiftr_div_pow2 by lia.
  assert (2 ^ (- e) = 2 * 2 ^ (- e - 1)) as Hp.
  { rewrite <- Z.pow_succ_r by lia. f_equal. lia. }
  rewrite Hp. set (h := 2 ^ (- e - 1)).
  assert (0 < h) as Hh by (apply Z.pow_pos_nonneg; lia).
  pose proof (Z.div_mod (n + h) (2 * h) ltac:(lia)) as Hdm.
  pose proof (Z.mod_pos_bound (n + h) (2 * h) ltac:(lia)) as Hmb.
  nia.
Qed.

(** C9. With no identity in the render, [startDrawing] leaves the canvas
    and the backend as they are and sets the sign-in notice as the status
    message; with no stroke in progress or no identity in the render, [draw]
    changes nothing at all: not the pixel buffer, not the Stroke Log. *)
Theorem guards_leave_canvas_and_log :
  forall (B : Browser) (r : State) (e : MouseEvent) (rect : DOMRect) (net : Net)
         (w : World),
    (user r = None ->
     canvas (snd (startDrawing r e rect w)) = canvas w /\
     db (snd (startDrawing r e rect w)) = db w /\
     message (react (snd (startDrawing r e rect w))) =
       "Please sign in to start drawing!") /\
    (isDrawing r = false \/ user r = None ->
     draw B r e rect net w = (Returned tt, w)).
Proof.
  intros B r e rect net w. split.
  - intros Hu. unfold startDrawing. rewrite Hu. cbn. auto.
  - intros [Hd|Hu]; unfold draw.
    + rewrite Hd. reflexivity.
    + rewrite Hu. destruct (isDrawing r); reflexivity.
Qed.

(** *** createNewDrawing *)

(** C2, as amended. When the insert of [createNewDrawing] comes back with
    an error, or does not come back, the handler still returns normally and
    the current-Drawing id is the placeholder: the prefix [temp-] followed by
    the timestamp.  It is not empty, the identity in the store is untouched,
    the tables are as they were, and [draw] returns normally ever after. *)
Theorem createNewDrawing_fallback :
  forall (B : Browser) (r : State) (u : User.t) (net : Net) (p : Pick)
         (now_name now_temp : Z) (w : World),
    user r = Some u ->
    match fst (db_insert net p
                 (Drawing.mkValues ("Drawing " ++ JS.String_of_Z now_name)
                    true None (User.id u)) (db w)) with
    | Fulfilled resp => Response.error resp <> None
    | Rejected _ => True
    end ->
    let run := createNewDrawing r net p now_name now_temp w in
    fst run = Returned tt /\
    currentDrawingId (react (snd run)) =
      Some ("temp-" ++ JS.String_of_Z now_temp)%string /\
    JS.truthy (currentDrawingId (react (snd run))) = true /\
    user (react (snd run)) = user (react w) /\
    db (snd run) = db w /\
    forall (r' : State) (e : MouseEvent) (rect : DOMRect) (net' : Net)
           (w' : World),
      fst (draw B r' e rect net' w') = Returned tt.
Proof.
  intros B r u net p now_name now_temp w Hu Hfail. cbv zeta.
  unfold createNewDrawing. rewrite Hu. run_js.
  destruct net as [|e|e]; cbn [db_insert] in *.
  - destruct (existsb (has_id (pick_id p)) (drawings (db w))); cbn in *.
    + repeat split; auto; intros; apply draw_returns.
    + exfalso. now apply Hfail.
  - cbn. repeat split; auto; intros; apply draw_returns.
  - cbn. repeat split; auto; intros; apply draw_returns.
Qed.

(** C2, the claim as stated fails: the insert is refused at timestamp
    1700000000001; the placeholder is [temp-1700000000001], which begins with
    [temp-] and not with the timestamp. *)
Lemma fallback_id_counterexample :
  let w := demo_world signed_in in
  let run := createNewDrawing (render w) (Refused (Error.mk "offline"))
               (mkPick "d3" 9) 1700000000000 1700000000001 w in
  currentDrawingId (react (snd run)) = Some "temp-1700000000001" /\
  String.prefix (JS.String_of_Z 1700000000001) "temp-1700000000001" = false /\
  String.prefix "temp-" "temp-1700000000001" = true.
Proof. cbv zeta. repeat split; vm_compute; reflexivity. Qed.

(** *** loadDrawing *)

(** C3, as amended. A [loadDrawing] that fetches a row with a non-empty
    snapshot makes the fetched id current and starts decoding; the pixel
    buffer is not touched by the call.  It is cleared, and the image drawn
    into the cleared buffer, when and only when the decoder reports the
    image loaded; a decode that fails leaves the prior content. *)
Theorem loadDrawing_clears_on_load_event :
  forall (B : Browser) (i : string) (row : Drawing.t) (s : string) (w : World),
    filter (has_id i) (drawings (db w)) = [row] ->
    Drawing.canvas_data row = Some s ->
    JS.truthy (Some s) = true ->
    let run := loadDrawing i Up w in
    fst run = Returned tt /\
    canvas (snd run) = canvas w /\
    images (snd run) = images w ++ [s] /\
    currentDrawingId (react (snd run)) = Some i /\
    (forall img, decode_image B s = Some img ->
       bitmap (canvas (snd (image_settles B s (snd run)))) =
         drawImage B (clearRect_all (bitmap (canvas w))) img /\
       log (snd (image_settles B s (snd run))) =
         log (snd run) ++
           [Paint (clearRect_all (bitmap (canvas w)));
            Paint (drawImage B (clearRect_all (bitmap (canvas w))) img)]) /\
    (decode_image B s = None ->
       canvas (snd (image_settles B s (snd run))) = canvas w).
Proof.
  intros B i row s w Hrow Hcd Hs. cbv zeta.
  destruct s as [|a s']; [discriminate Hs|].
  unfold loadDrawing, image_settles, img_onload. run_js.
  cbn [db_get]. rewrite Hrow. cbn. rewrite Hcd. cbn.
  do 4 (split; [reflexivity|]). split.
  - intros img Himg. rewrite Himg. cbn. split; [reflexivity|].
    rewrite <- !app_assoc. reflexivity.
  - intros Hnone. rewrite Hnone. cbn. reflexivity.
Qed.

(** C3, the claim as stated fails: the canvas shows a red pixel and the
    fetched row holds a snapshot that does not decode.  The prior content is
    still there when [loadDrawing] returns and after the decoder has given
    up; the buffer is never blank, though the row's id has become current.
    And a fetched row without a snapshot leaves both the buffer and the
    current-Drawing id alone. *)
Lemma loadDrawing_counterexample :
  let w := demo_world signed_in in
  let run := loadDrawing "d2" Up w in
  let settled := image_settles demo_browser "not an image" (snd run) in
  (filter (has_id "d2") (drawings (db w)) = [doodle] /\
   fst run = Returned tt /\
   currentDrawingId (react (snd run)) = Some "d2" /\
   images (snd run) = ["not an image"] /\
   decode_image demo_browser "not an image" = None /\
   bitmap (canvas (snd run)) = red_pixel /\
   bitmap (canvas (snd settled)) = red_pixel /\
   ~ is_blank red_pixel) /\
  (filter (has_id "d1") (drawings (db w)) = [sketch] /\
   fst (loadDrawing "d1" Up w) = Returned tt /\
   currentDrawingId (react (snd (loadDrawing "d1" Up w))) <> Some "d1" /\
   bitmap (canvas (snd (loadDrawing "d1" Up w))) = red_pixel).
Proof.
  cbv zeta. repeat split; try (vm_compute; reflexivity).
  - intros H. inversion H as [|v l Hv Hl]. discriminate Hv.
  - vm_compute. discriminate.
Qed.

(** C10. When the fetched row has no snapshot ([null] or the empty
    string) [loadDrawing] returns leaving React's store, the canvas, the
    pending images and the tables exactly as they were: the current-Drawing
    id and the status message keep their values. *)
Theorem loadDrawing_empty_snapshot_noop :
  forall (i : string) (row : Drawing.t) (w : World),
    filter (has_id i) (drawings (db w)) = [row] ->
    JS.truthy (Drawing.canvas_data row) = false ->
    let run := loadDrawing i Up w in
    fst run = Returned tt /\
    react (snd run) = react w /\
    canvas (snd run) = canvas w /\
    images (snd run) = images w /\
    db (snd run) = db w /\
    currentDrawingId (react (snd run)) = currentDrawingId (react w) /\
    message (react (snd run)) = message (react w).
Proof.
  intros i row w Hrow Hcd. cbv zeta.
  unfold loadDrawing. run_js. cbn [db_get]. rewrite Hrow. cbn.
  destruct (Drawing.canvas_data row) as [[|a s]|]; cbn.
  - repeat split; reflexivity.
  - discriminate Hcd.
  - repeat split; reflexivity.
Qed.

(** *** signOut *)

Lemma blank_is_blank (w h : Z) : is_blank (blank w h).
Proof.
  unfold is_blank, blank. cbn.
  apply Forall_forall. intros v Hv. now apply repeat_spec in Hv.
Qed.

(** C6. When the provider accepts the sign-out the identity, the Drawing
    list and the current-Drawing id are cleared and the canvas is blank.
    When the provider answers with an error, or the call throws, the
    identity, the list, the current id and the canvas are as they were; the
    error answer is shown as the status message. *)
Theorem signOut_all_or_nothing :
  (forall w : World,
     let run := signOut (Fulfilled None) w in
     fst run = Returned tt /\
     user (react (snd run)) = None /\
     savedDrawings (react (snd run)) = [] /\
     currentDrawingId (react (snd run)) = None /\
     bitmap (canvas (snd run)) = clearRect_all (bitmap (canvas w)) /\
     is_blank (bitmap (canvas (snd run))) /\
     message (react (snd run)) = "Signed out successfully") /\
  (forall (e : Error.t) (w : World),
     let run := signOut (Fulfilled (Some e)) w in
     fst run = Returned tt /\
     user (react (snd run)) = user (react w) /\
     savedDrawings (react (snd run)) = savedDrawings (react w) /\
     currentDrawingId (react (snd run)) = currentDrawingId (react w) /\
     canvas (snd run) = canvas w /\
     message (react (snd run)) =
       ("Error signing out: " ++ Error.message e)%string) /\
  (forall (e : Error.t) (w : World),
     let run := signOut (Rejected e) w in
     fst run = Thrown e /\
     react (snd run) = react w /\
     canvas (snd run) = canvas w).
Proof.
  repeat split; try apply blank_is_blank.
Qed.

(** *** The page never creates a drawing eagerly *)

Ltac log_delta :=
  cbn; rewrite <- ?app_assoc; cbn;
  first [ eexists; split; [reflexivity|reflexivity]
        | exists []; rewrite app_nil_r; split; reflexivity ].

Lemma signed_false (r : State) : signed r = false -> user r = None.
Proof. unfold signed. destruct (user r); [discriminate|reflexivity]. Qed.

(** Every event the page offers adds to the log, and never the insert of
    [createNewDrawing]. *)
Lemma dispatch_no_creation (B : Browser) (ev : Event) (w : World) :
  offered w ev = true ->
  exists delta,
    log (snd (dispatch B ev w)) = log w ++ delta /\
    existsb is_creation delta = false.
Proof.
  intros Hoff. destruct ev; unfold dispatch; cbv zeta.
  - log_delta.
  - log_delta.
  - log_delta.
  - cbn in Hoff. apply andb_prop in Hoff. destruct Hoff as [Hoff _].
    apply andb_prop in Hoff. destruct Hoff as [Hoff _].
    apply andb_prop in Hoff. destruct Hoff as [Hoff _].
    apply negb_true_iff, signed_false in Hoff.
    unfold signIn, createNewDrawing. rewrite Hoff. run_js.
    destruct auth as [[au [ae|]]|e]; [log_delta| |log_delta].
    destruct net_list as [|e|e]; log_delta.
  - unfold signOut. run_js. destruct reply as [[e|]|e]; log_delta.
  - log_delta.
  - log_delta.
  - unfold startDrawing. destruct (user (render w)); log_delta.
  - unfold draw. destruct (isDrawing (render w)); [|log_delta].
    destruct (user (render w)); [|log_delta].
    run_js. destruct net; log_delta.
  - log_delta.
  - unfold saveDrawing. destruct (user (render w)) as [u|]; [|log_delta].
    run_js. destruct net_insert as [|e|e]; cbn [db_insert]; [|log_delta|log_delta].
    destruct (existsb (has_id (pick_id p)) (drawings (db w))); [log_delta|].
    destruct net_list as [|e|e]; log_delta.
  - unfold loadDrawing. run_js. destruct net as [|e|e]; cbn [db_get];
      [|log_delta|log_delta].
    destruct (filter (has_id i) (drawings (db w))) as [|row [|row' l]];
      [log_delta| |log_delta].
    cbn. destruct (Drawing.canvas_data row) as [[|a s]|]; log_delta.
  - unfold image_settles, img_onload. run_js.
    destruct (decode_image B src); log_delta.
Qed.

Lemma fetchUser_no_creation (r : State)
  (reply : Settled (Response.t (option User.t))) (net_list net_create : Net)
  (p : Pick) (now_name now_temp : Z) (w : World) :
  user r = None ->
  exists delta,
    log (snd (fetchUser r reply net_list net_create p now_name now_temp w)) =
      log w ++ delta /\
    existsb is_creation delta = false.
Proof.
  intros Hu. unfold fetchUser, createNewDrawing. rewrite Hu. run_js.
  destruct reply as [[[[u|]|] e]|e]; try log_delta.
  destruct net_list as [|e'|e']; log_delta.
Qed.

Lemma play_no_creation (B : Browser) (evs : list Event) :
  forall w : World,
    existsb is_creation (log w) = false ->
    existsb is_creation (log (play B evs w)) = false.
Proof.
  induction evs as [|ev rest IH]; intros w Hw; cbn [play]; [assumption|].
  destruct (offered w ev) eqn:Hoff; [|now apply IH].
  apply IH. destruct (dispatch_no_creation B ev w Hoff) as [delta [Hlog Hd]].
  rewrite Hlog, existsb_app, Hw, Hd. reflexivity.
Qed.

(** X25. From the first render on (the mount effect, then any events the page
    offers, whatever the provider and the backend answer) the insert of
    [createNewDrawing] is never issued: the two calls of it, in [fetchUser]
    and in [signIn], are made from renders whose [user] is [null]. *)
Theorem page_never_creates_eagerly :
  forall (B : Browser) (reply : Settled (Response.t (option User.t)))
         (net_list net_create : Net) (p : Pick) (now_name now_temp : Z)
         (evs : list Event) (w : World),
    react w = initialState ->
    log w = [] ->
    existsb is_creation
      (log (play B evs
              (snd (fetchUser (render w) reply net_list net_create p
                      now_name now_temp w)))) = false.
Proof.
  intros B reply net_list net_create p now_name now_temp evs w Hr Hl.
  apply play_no_creation.
  destruct (fetchUser_no_creation (render w) reply net_list net_create p
              now_name now_temp w) as [delta [Hlog Hd]].
  - unfold render. rewrite Hr. reflexivity.
  - rewrite Hlog, Hl. exact Hd.
Qed.

(** *** handleAdjust *)

Lemma adjust_pixel_by_channel (b c : JS.number) (d0 d1 d2 : Z) :
  adjust_pixel b c (d0, d1, d2) =
    (adjust_channel b c d0, adjust_channel b c d1, adjust_channel b c d2).
Proof. reflexivity. Qed.

Lemma adjust_channel_fixes_bytes :
  forallb
    (fun v => adjust_channel (PrimFloat.div 100 100) (PrimFloat.div 100 100) v =? v)
    (map Z.of_nat (seq 0 256)) = true.
Proof. vm_compute. reflexivity. Qed.

Lemma adjust_channel_100_100 (v : Z) :
  is_byte v ->
  adjust_channel (PrimFloat.div 100 100) (PrimFloat.div 100 100) v = v.
Proof.
  intros [Hlo Hhi]. apply Z.eqb_eq.
  pose proof adjust_channel_fixes_bytes as Hall.
  rewrite forallb_forall in Hall. apply Hall.
  apply in_map_iff. exists (Z.to_nat v). split; [lia|].
  apply in_seq. lia.
Qed.

Lemma adjust_data_100_100 (n : nat) :
  forall d : list Z,
    (List.length d <= n)%nat ->
    Forall is_byte d ->
    adjust_data (PrimFloat.div 100 100) (PrimFloat.div 100 100) d = d.
Proof.
  induction n as [|n IH]; intros d Hlen Hb.
  - destruct d; [reflexivity|cbn in Hlen; lia].
  - destruct d as [|d0 [|d1 [|d2 [|a rest]]]]; cbn [adjust_data];
      try reflexivity;
      rewrite adjust_pixel_by_channel; cbv beta iota;
      repeat match goal with
             | H : Forall is_byte (_ :: _) |- _ => inversion H; subst; clear H
             end;
      rewrite ?adjust_channel_100_100 by assumption;
      try reflexivity.
    rewrite IH; [reflexivity| cbn in Hlen; lia | assumption].
Qed.

Lemma digits2_pos_bound (m : positive) : Z.pos m < 2 ^ Z.pos (digits2_pos m).
Proof.
  induction m as [m IH|m IH|]; cbn [digits2_pos];
    rewrite ?Pos2Z.inj_succ, ?Z.pow_succ_r by lia; lia.
Qed.

Lemma bounded_mantissa (m : positive) (e : Z) :
  bounded prec emax m e = true -> Z.pos m < 2 ^ 53.
Proof.
  unfold bounded, canonical_mantissa, fexp. intros H.
  apply andb_prop in H. destruct H as [H _]. apply Z.eqb_eq in H.
  assert (Z.pos (digits2_pos m) <= 53) as Hd.
  { change prec with 53 in H. lia. }
  apply Z.lt_le_trans with (2 ^ Z.pos (digits2_pos m)).
  - apply digits2_pos_bound.
  - apply Z.pow_le_mono_r; lia.
Qed.

Lemma shiftr_below (m : positive) (k b : Z) :
  0 < k -> Z.pos m < b * 2 ^ k -> 0 <= Z.shiftr (Z.pos m) k < b.
Proof.
  intros Hk Hm. rewrite Z.shiftr_div_pow2 by lia.
  assert (0 < 2 ^ k) by (apply Z.pow_pos_nonneg; lia).
  split.
  - apply Z.div_pos; lia.
  - apply Z.div_lt_upper_bound; lia.
Qed.

(** Whatever number is stored, a [Uint8ClampedArray] element holds a
    byte. *)
Lemma ToUint8Clamp_byte (x : JS.number) : is_byte (JS.ToUint8Clamp x).
Proof.
  unfold is_byte, JS.ToUint8Clamp.
  destruct (PrimFloat.is_nan x); [lia|].
  destruct (PrimFloat.leb x 0) eqn:L0; [lia|].
  destruct (PrimFloat.leb 255 x) eqn:L255; [lia|].
  rewrite FloatAxioms.leb_spec in L0, L255. unfold JS.dyadic.
  pose proof (Prim2SF_valid x) as V.
  change (Prim2SF 0) with (S754_zero false) in L0.
  change (Prim2SF 255) with (S754_finite false 8972014882652160 (-45)) in L255.
  destruct (Prim2SF x) as [s|s| |s m e]; try lia.
  - discriminate L0.
  - destruct s; [discriminate L0|].
    cbn [valid_binary] in V. apply bounded_mantissa in V.
    unfold SFleb, SFcompare in L255.
    destruct (Z.compare_spec (-45) e) as [He|He|He]; try discriminate L255.
    + subst e. change (0 <=? -45) with false. cbv iota.
      assert (Z.pos m < 8972014882652160) as Hm.
      { destruct (Pos.compare_cont Eq 8972014882652160 m) eqn:C;
          try discriminate L255.
        change (Pos.compare_cont Eq 8972014882652160 m)
          with (Pos.compare 8972014882652160 m) in C.
        apply Pos.compare_gt_iff in C. exact C. }
      change (- -45) with 45.
      assert (0 <= Z.shiftr (Z.pos m) 45 < 255) as Hf.
      { apply shiftr_below; [reflexivity|].
        change (255 * 2 ^ 45) with 8972014882652160. exact Hm. }
      set (f := Z.shiftr (Z.pos m) 45) in *.
      set (rest := Z.pos m - Z.shiftl f 45).
      set (half := 2 ^ (45 - 1)).
      clearbody f rest half. clear - Hf.
      destruct (half <? rest); [lia|].
      destruct (rest <? half); [lia|].
      destruct (Z.even f); lia.
    + assert (e < 0) as Hneg by (clear - He; lia).
      apply Z.leb_gt in Hneg. rewrite Hneg.
      assert (0 <= Z.shiftr (Z.pos m) (- e) < 128) as Hf.
      { assert (0 < - e /\ 0 <= - e /\ 53 <= 7 + - e) as (H1 & H2 & H3)
          by (clear - He; lia).
        apply shiftr_below; [exact H1|].
        apply Z.lt_le_trans with (2 ^ 53); [exact V|].
        change 128 with (2 ^ 7). rewrite <- Z.pow_add_r by (exact H2 || lia).
        apply Z.pow_le_mono_r; [lia|exact H3]. }
      set (f := Z.shiftr (Z.pos m) (- e)) in *.
      set (rest := Z.pos m - Z.shiftl f (- e)).
      set (half := 2 ^ (- e - 1)).
      clearbody f rest half. clear - Hf.
      destruct (half <? rest); [lia|].
      destruct (rest <? half); [lia|].
      destruct (Z.even f); lia.
Qed.

Lemma adjust_channel_byte (b c : JS.number) (v : Z) :
  is_byte (adjust_channel b c v).
Proof. apply ToUint8Clamp_byte. Qed.

Lemma adjust_data_shape (b c : JS.number) (n : nat) :
  forall d : list Z,
    (List.length d <= n)%nat ->
    List.length (adjust_data b c d) = List.length d /\
    (forall k, nth (4 * k + 3) (adjust_data b c d) 0 = nth (4 * k + 3) d 0) /\
    (Forall is_byte d -> Forall is_byte (adjust_data b c d)).
Proof.
  induction n as [|n IH]; intros d Hlen.
  - destruct d; [|cbn in Hlen; lia]. repeat split; auto.
  - destruct d as [|d0 [|d1 [|d2 [|a rest]]]]; cbn [adjust_data];
      try rewrite adjust_pixel_by_channel; cbv beta iota.
    + repeat split; auto.
    + repeat split;
        [intros [|k]; [reflexivity|];
         replace (4 * S k + 3)%nat with (S (S (S (S (4 * k + 3))))) by lia;
         reflexivity|].
      intros _. repeat constructor; apply adjust_channel_byte.
    + repeat split;
        [intros [|k]; [reflexivity|];
         replace (4 * S k + 3)%nat with (S (S (S (S (4 * k + 3))))) by lia;
         reflexivity|].
      intros _. repeat constructor; apply adjust_channel_byte.
    + repeat split;
        [intros [|k]; [reflexivity|];
         replace (4 * S k + 3)%nat with (S (S (S (S (4 * k + 3))))) by lia;
         reflexivity|].
      intros _. repeat constructor; apply adjust_channel_byte.
    + destruct (IH rest) as (Hl & Ha & Hb); [cbn in Hlen; lia|].
      split; [cbn [List.length]; now rewrite Hl|]. split.
      * intros [|k]; [reflexivity|].
        replace (4 * S k + 3)%nat with (S (S (S (S (4 * k + 3))))) by lia.
        cbn [nth]. apply Ha.
      * intros Hall. inversion Hall as [|? ? _ H1]; subst.
        inversion H1 as [|? ? _ H2]; subst. inversion H2 as [|? ? _ H3]; subst.
        inversion H3 as [|? ? Halpha Hrest]; subst.
        repeat (constructor; [apply adjust_channel_byte|]).
        constructor; [exact Halpha|]. now apply Hb.
Qed.

(** The two stores of a channel, one at a time.  With the other slider at
    100 a store leaves a byte as it is. *)
Lemma brightness_100_fixes_bytes :
  forallb
    (fun v => JS.ToUint8Clamp
                (JS.Math_min 255%float
                   (PrimFloat.mul (JS.of_Z v) (PrimFloat.div 100 100))) =? v)
    (map Z.of_nat (seq 0 256)) = true.
Proof. vm_compute. reflexivity. Qed.

Lemma contrast_100_fixes_bytes :
  forallb
    (fun v => JS.ToUint8Clamp
                (PrimFloat.add
                   (PrimFloat.mul (PrimFloat.sub (JS.of_Z v) 128%float)
                      (PrimFloat.div 100 100))
                   128%float) =? v)
    (map Z.of_nat (seq 0 256)) = true.
Proof. vm_compute. reflexivity. Qed.

Lemma byte_in_range (v : Z) : is_byte v -> In v (map Z.of_nat (seq 0 256)).
Proof.
  intros [Hlo Hhi]. apply in_map_iff. exists (Z.to_nat v). split; [lia|].
  apply in_seq. lia.
Qed.

Lemma adjust_channel_brightness_only (b : JS.number) (v : Z) :
  adjust_channel b (PrimFloat.div 100 100) v =
    JS.ToUint8Clamp (JS.Math_min 255%float (PrimFloat.mul (JS.of_Z v) b)).
Proof.
  unfold adjust_channel.
  set (s := JS.ToUint8Clamp (JS.Math_min 255%float (PrimFloat.mul (JS.of_Z v) b))).
  assert (is_byte s) as Hs by apply ToUint8Clamp_byte.
  apply Z.eqb_eq. pose proof contrast_100_fixes_bytes as Hall.
  rewrite forallb_forall in Hall. apply (Hall s). now apply byte_in_range.
Qed.

Lemma adjust_channel_contrast_only (c : JS.number) (v : Z) :
  is_byte v ->
  adjust_channel (PrimFloat.div 100 100) c v =
    JS.ToUint8Clamp
      (PrimFloat.add (PrimFloat.mul (PrimFloat.sub (JS.of_Z v) 128%float) c)
         128%float).
Proof.
  intros Hv. unfold adjust_channel.
  assert (JS.ToUint8Clamp
            (JS.Math_min 255%float
               (PrimFloat.mul (JS.of_Z v) (PrimFloat.div 100 100))) = v) as Hb.
  { apply Z.eqb_eq. pose proof brightness_100_fixes_bytes as Hall.
    rewrite forallb_forall in Hall. apply (Hall v). now apply byte_in_range. }
  rewrite Hb. reflexivity.
Qed.

(** Brightness first, contrast second: the whole transform is the
    contrast-only transform of the result of the brightness-only one. *)
Lemma adjust_channel_in_order (b c : JS.number) (v : Z) :
  adjust_channel b c v =
    adjust_channel (PrimFloat.div 100 100) c
      (adjust_channel b (PrimFloat.div 100 100) v).
Proof.
  rewrite adjust_channel_contrast_only by apply adjust_channel_byte.
  rewrite adjust_channel_brightness_only. reflexivity.
Qed.

(** The loop, channel by channel. *)
Lemma adjust_data_by_channel (b c : JS.number) (k : nat) :
  forall (d : list Z) (j : nat),
    (4 * k + 3 < List.length d)%nat ->
    (j < 3)%nat ->
    nth (4 * k + j) (adjust_data b c d) 0 =
      adjust_channel b c (nth (4 * k + j) d 0).
Proof.
  induction k as [|k IH]; intros d j Hlen Hj;
    destruct d as [|d0 [|d1 [|d2 [|a rest]]]]; cbn [List.length] in Hlen;
    try lia; cbn [adjust_data]; rewrite adjust_pixel_by_channel; cbv beta iota.
  - destruct j as [|[|[|j]]]; [reflexivity|reflexivity|reflexivity|lia].
  - replace (4 * S k + j)%nat with (S (S (S (S (4 * k + j))))) by lia.
    cbn [nth]. apply IH; lia.
Qed.

(** What the canvas reads back keeps the shape of what was written, its
    alpha bytes, and bytes as bytes; opaque pixels are read back as
    written. *)
Lemma read_back_byte (q : Z -> Z -> Byte.byte) (a v : Z) :
  is_byte v -> is_byte (read_back q a v).
Proof.
  intros Hv. unfold read_back. destruct (a =? 255); [exact Hv|].
  pose proof (Byte.to_N_bounded (q a v)) as Hq. unfold is_byte. lia.
Qed.

Lemma read_back_data_shape (q : Z -> Z -> Byte.byte) (n : nat) :
  forall d : list Z,
    (List.length d <= n)%nat ->
    List.length (read_back_data q d) = List.length d /\
    (forall k, nth (4 * k + 3) (read_back_data q d) 0 = nth (4 * k + 3) d 0) /\
    (Forall is_byte d -> Forall is_byte (read_back_data q d)) /\
    (opaque d = true -> read_back_data q d = d).
Proof.
  induction n as [|n IH]; intros d Hlen.
  - destruct d; [|cbn in Hlen; lia].
    split; [reflexivity|]. split; [reflexivity|]. split; [auto|reflexivity].
  - destruct d as [|d0 [|d1 [|d2 [|a rest]]]]; cbn [read_back_data opaque];
      try (split; [reflexivity|]; split; [reflexivity|]; split;
           [auto|reflexivity]).
    destruct (IH rest) as (Hl & Ha & Hb & Ho); [cbn in Hlen; lia|].
    split; [cbn [List.length]; now rewrite Hl|]. split; [|split].
    + intros [|k]; [reflexivity|].
      replace (4 * S k + 3)%nat with (S (S (S (S (4 * k + 3))))) by lia.
      cbn [nth]. apply Ha.
    + intros Hall. inversion Hall as [|? ? H0 H1]; subst.
      inversion H1 as [|? ? H1' H2]; subst. inversion H2 as [|? ? H2' H3]; subst.
      inversion H3 as [|? ? Halpha Hrest]; subst.
      repeat (constructor; [now apply read_back_byte|]).
      constructor; [exact Halpha|]. now apply Hb.
    + intros Hop. apply andb_prop in Hop. destruct Hop as [Halpha Hrest].
      unfold read_back. rewrite Halpha. now rewrite Ho.
Qed.

(** The two ways [handleAdjust] ends. *)
Lemma handleAdjust_runs (q : Z -> Z -> Byte.byte) (r : State) (w : World) :
  width (bitmap (canvas w)) <> 0 ->
  height (bitmap (canvas w)) <> 0 ->
  handleAdjust q r w =
    (Returned tt,
     mkWorld (react w)
       (mkCanvas
          (mkBitmap (width (bitmap (canvas w))) (height (bitmap (canvas w)))
             (read_back_data q
                (adjust_data (PrimFloat.div (brightness r) 100)
                   (PrimFloat.div (contrast r) 100) (data (bitmap (canvas w))))))
          (ctx (canvas w)))
       (db w) (images w)
       (log w ++
        [Paint
           (mkBitmap (width (bitmap (canvas w))) (height (bitmap (canvas w)))
              (read_back_data q
                 (adjust_data (PrimFloat.div (brightness r) 100)
                    (PrimFloat.div (contrast r) 100)
                    (data (bitmap (canvas w))))))])).
Proof.
  intros Hw Hh. unfold handleAdjust, getImageData_error.
  apply Z.eqb_neq in Hw. apply Z.eqb_neq in Hh. rewrite Hw, Hh. reflexivity.
Qed.

Lemma handleAdjust_throws (q : Z -> Z -> Byte.byte) (r : State) (w : World) :
  width (bitmap (canvas w)) = 0 \/ height (bitmap (canvas w)) = 0 ->
  exists e, handleAdjust q r w = (Thrown e, w).
Proof.
  intros Hempty. unfold handleAdjust, getImageData_error.
  destruct (width (bitmap (canvas w)) =? 0) eqn:Hw; [eexists; reflexivity|].
  destruct (height (bitmap (canvas w)) =? 0) eqn:Hh; [eexists; reflexivity|].
  apply Z.eqb_neq in Hw. apply Z.eqb_neq in Hh. destruct Hempty; contradiction.
Qed.

Lemma handleAdjust_cases (q : Z -> Z -> Byte.byte) (r : State) (w : World) :
  (width (bitmap (canvas w)) <> 0 /\ height (bitmap (canvas w)) <> 0) \/
  (width (bitmap (canvas w)) = 0 \/ height (bitmap (canvas w)) = 0).
Proof.
  destruct (Z.eq_dec (width (bitmap (canvas w))) 0) as [Hw|Hw];
    [right; now left|].
  destruct (Z.eq_dec (height (bitmap (canvas w))) 0) as [Hh|Hh];
    [right; now right|]. left. now split.
Qed.

(** With both sliders at 100 the canvas is as it was, wherever it reads
    back what is written to it. *)
Lemma handleAdjust_neutral (q : Z -> Z -> Byte.byte) (r : State) (w : World) :
  brightness r = 100%float ->
  contrast r = 100%float ->
  Forall is_byte (data (bitmap (canvas w))) ->
  read_back_data q (data (bitmap (canvas w))) = data (bitmap (canvas w)) ->
  bitmap (canvas (snd (handleAdjust q r w))) = bitmap (canvas w).
Proof.
  intros Hb Hc Hbytes Hback.
  destruct (handleAdjust_cases q r w) as [[Hw Hh]|Hempty].
  - rewrite (handleAdjust_runs q r w Hw Hh). cbn [snd canvas bitmap].
    rewrite Hb, Hc.
    rewrite (adjust_data_100_100 (List.length (data (bitmap (canvas w)))))
      by (exact Hbytes || apply Nat.le_refl).
    rewrite Hback. now destruct (bitmap (canvas w)).
  - destruct (handleAdjust_throws q r w Hempty) as [e He]. now rewrite He.
Qed.

(** C7. With both sliders at 100, [handleAdjust] computes for every byte
    of every pixel the value it read, so the canvas is as it was wherever
    it reads back what is written to it, as it does for opaque pixels; the
    handler returns when the canvas has pixels and throws out of
    [getImageData], changing nothing, when it has none.  For any sliders,
    the loop does per colour channel the brightness product capped at 255,
    stored, and then the rescaling around 128 of the stored value, stored
    again, in that order and not the other; alpha is not written; and since
    each store rounds and clamps at both ends, every channel value it leaves
    is a byte. *)
Theorem handleAdjust_100_100_identity :
  forall (q : Z -> Z -> Byte.byte) (r : State) (w : World),
    brightness r = 100%float ->
    contrast r = 100%float ->
    Forall is_byte (data (bitmap (canvas w))) ->
    (forall v, is_byte v ->
               adjust_channel (PrimFloat.div 100 100) (PrimFloat.div 100 100) v = v) /\
    adjust_data (PrimFloat.div (brightness r) 100) (PrimFloat.div (contrast r) 100)
      (data (bitmap (canvas w))) = data (bitmap (canvas w)) /\
    (read_back_data q (data (bitmap (canvas w))) = data (bitmap (canvas w)) ->
     bitmap (canvas (snd (handleAdjust q r w))) = bitmap (canvas w)) /\
    (opaque (data (bitmap (canvas w))) = true ->
     bitmap (canvas (snd (handleAdjust q r w))) = bitmap (canvas w)) /\
    ctx (canvas (snd (handleAdjust q r w))) = ctx (canvas w) /\
    (width (bitmap (canvas w)) <> 0 ->
     height (bitmap (canvas w)) <> 0 ->
     fst (handleAdjust q r w) = Returned tt) /\
    (width (bitmap (canvas w)) = 0 \/ height (bitmap (canvas w)) = 0 ->
     exists e, handleAdjust q r w = (Thrown e, w)) /\
    (forall b c v, is_byte (adjust_channel b c v)) /\
    (forall b v,
       adjust_channel b (PrimFloat.div 100 100) v =
         JS.ToUint8Clamp (JS.Math_min 255%float (PrimFloat.mul (JS.of_Z v) b))) /\
    (forall c v,
       is_byte v ->
       adjust_channel (PrimFloat.div 100 100) c v =
         JS.ToUint8Clamp
           (PrimFloat.add (PrimFloat.mul (PrimFloat.sub (JS.of_Z v) 128%float) c)
              128%float)) /\
    (forall b c v,
       adjust_channel b c v =
         adjust_channel (PrimFloat.div 100 100) c
           (adjust_channel b (PrimFloat.div 100 100) v)) /\
    (adjust_channel (PrimFloat.div 150 100) (PrimFloat.div 50 100) 200 = 192 /\
     adjust_channel (PrimFloat.div 150 100) (PrimFloat.div 100 100)
       (adjust_channel (PrimFloat.div 100 100) (PrimFloat.div 50 100) 200) = 246) /\
    (forall b c d k j,
       (4 * k + 3 < List.length d)%nat ->
       (j < 3)%nat ->
       nth (4 * k + j) (adjust_data b c d) 0 =
         adjust_channel b c (nth (4 * k + j) d 0)) /\
    (forall b c d k,
       nth (4 * k + 3) (adjust_data b c d) 0 = nth (4 * k + 3) d 0).
Proof.
  intros q r w Hb Hc Hbytes.
  split; [intros v Hv; now apply adjust_channel_100_100|].
  split.
  { rewrite Hb, Hc.
    apply (adjust_data_100_100 (List.length (data (bitmap (canvas w)))));
      [apply Nat.le_refl|exact Hbytes]. }
  split; [intros Hback; now apply handleAdjust_neutral|].
  split.
  { intros Hop. apply handleAdjust_neutral; try assumption.
    apply (read_back_data_shape q (List.length (data (bitmap (canvas w)))));
      [apply Nat.le_refl|exact Hop]. }
  split.
  { destruct (handleAdjust_cases q r w) as [[Hw Hh]|Hempty].
    - now rewrite (handleAdjust_runs q r w Hw Hh).
    - destruct (handleAdjust_throws q r w Hempty) as [e He]. now rewrite He. }
  split; [intros Hw Hh; now rewrite (handleAdjust_runs q r w Hw Hh)|].
  split; [apply handleAdjust_throws|].
  split; [apply adjust_channel_byte|].
  split; [apply adjust_channel_brightness_only|].
  split; [apply adjust_channel_contrast_only|].
  split; [apply adjust_channel_in_order|].
  split; [split; vm_compute; reflexivity|].
  split; [intros b c d k j; apply adjust_data_by_channel|].
  intros b c d k.
  apply (adjust_data_shape b c (List.length d)). apply Nat.le_refl.
Qed.

(** The channel value is not the one the words [clamped only on the upper
    end] give: with brightness 50 and contrast 150 the channel 10 becomes
    5 and then, rescaled to -56.5, is stored as 0. *)
Lemma upper_clamp_only_counterexample :
  adjust_channel (PrimFloat.div 50 100) (PrimFloat.div 150 100) 10 = 0 /\
  clamped_above_only (PrimFloat.div 50 100) (PrimFloat.div 150 100) 10 =
    (-56.5)%float /\
  PrimFloat.ltb
    (clamped_above_only (PrimFloat.div 50 100) (PrimFloat.div 150 100) 10)
    0%float = true /\
  brightness dim_and_sharp = 50%float /\
  contrast dim_and_sharp = 150%float /\
  bitmap (canvas (snd (handleAdjust demo_read_back dim_and_sharp dark_world))) =
    mkBitmap 1 1 [0; 0; 0; 255].
Proof. repeat split; vm_compute; reflexivity. Qed.

(** *** Instances *)

Lemma saveDrawing_inserts_new_row_witness :
  user signed_in = Some alice /\
  currentDrawingId
    (react (snd (saveDrawing demo_browser signed_in None 77 Up (mkPick "d3" 9) Up
                   (demo_world signed_in)))) = Some "d3".
Proof.
  split; [reflexivity|].
  destruct (saveDrawing_inserts_new_row demo_browser signed_in alice None 77 Up
              (mkPick "d3" 9) Up (demo_world signed_in) eq_refl)
    as (_ & _ & _ & _ & Hok).
  destruct (Hok eq_refl eq_refl) as (_ & Hid & _).
  exact Hid.
Defined.

Lemma createNewDrawing_fallback_witness :
  user signed_in = Some alice /\
  fst (db_insert (Refused (Error.mk "offline")) (mkPick "d3" 9)
         (Drawing.mkValues ("Drawing " ++ JS.String_of_Z 100) true None
            (User.id alice))
         (db (demo_world signed_in))) =
    Fulfilled (Response.failed (Error.mk "offline")) /\
  currentDrawingId
    (react (snd (createNewDrawing signed_in (Refused (Error.mk "offline"))
                   (mkPick "d3" 9) 100 101 (demo_world signed_in)))) =
    Some "temp-101".
Proof.
  split; [reflexivity|]. split; [reflexivity|].
  destruct (createNewDrawing_fallback demo_browser signed_in alice
              (Refused (Error.mk "offline")) (mkPick "d3" 9) 100 101
              (demo_world signed_in) eq_refl)
    as (_ & Hid & _).
  - cbn. discriminate.
  - exact Hid.
Defined.

Lemma loadDrawing_clears_on_load_event_witness :
  filter (has_id "d7") (drawings (db gallery_world)) = [pixel_row] /\
  Drawing.canvas_data pixel_row = Some png_of_red_pixel /\
  JS.truthy (Some png_of_red_pixel) = true /\
  decode_image demo_browser png_of_red_pixel = Some red_pixel /\
  bitmap (canvas (snd (image_settles demo_browser png_of_red_pixel
                         (snd (loadDrawing "d7" Up gallery_world))))) =
    drawImage demo_browser (clearRect_all (blank 1 1)) red_pixel.
Proof.
  split; [reflexivity|]. split; [reflexivity|]. split; [reflexivity|].
  split; [vm_compute; reflexivity|].
  destruct (loadDrawing_clears_on_load_event demo_browser "d7" pixel_row
              png_of_red_pixel gallery_world eq_refl eq_refl eq_refl)
    as (_ & _ & _ & _ & Hload & _).
  destruct (Hload red_pixel) as (Hbits & _).
  - vm_compute. reflexivity.
  - exact Hbits.
Defined.

Lemma loadDrawing_empty_snapshot_noop_witness :
  filter (has_id "d1") (drawings (db (demo_world signed_in))) = [sketch] /\
  JS.truthy (Drawing.canvas_data sketch) = false /\
  react (snd (loadDrawing "d1" Up (demo_world signed_in))) = signed_in.
Proof.
  split; [reflexivity|]. split; [reflexivity|].
  destruct (loadDrawing_empty_snapshot_noop "d1" sketch (demo_world signed_in)
              eq_refl eq_refl) as (_ & Hreact & _).
  exact Hreact.
Defined.

Lemma draw_appends_one_stroke_witness :
  isDrawing red_brush = true /\
  user red_brush = Some alice /\
  drawing_strokes
    (db (snd (draw demo_browser red_brush at_10_10 origin Up
                (demo_world red_brush)))) =
    [Stroke.mk (Some "d1") "u-alice" (Some 10) (Some 10) "#ef4444" 5].
Proof.
  split; [reflexivity|]. split; [reflexivity|].
  destruct (draw_appends_one_stroke demo_browser red_brush alice
              at_10_10 origin Up (demo_world red_brush)
              eq_refl eq_refl) as (_ & Hrows & _).
  exact Hrows.
Defined.

Lemma draw_paints_then_appends_witness :
  isDrawing red_brush = true /\
  user red_brush = Some alice /\
  message
    (react (snd (draw demo_browser red_brush at_10_10 origin
                   (Down (Error.mk "Failed to fetch")) (demo_world red_brush)))) =
    "".
Proof.
  split; [reflexivity|]. split; [reflexivity|].
  destruct (draw_paints_then_appends demo_browser red_brush alice
              at_10_10 origin
              (Down (Error.mk "Failed to fetch")) (demo_world red_brush)
              eq_refl eq_refl) as (_ & _ & _ & _ & Hmsg).
  exact Hmsg.
Defined.

Lemma guards_leave_canvas_and_log_witness :
  user signed_out = None /\
  (isDrawing signed_out = false \/ user signed_out = None) /\
  canvas (snd (startDrawing signed_out at_10_10 origin
                 (demo_world signed_out))) = demo_canvas /\
  draw demo_browser signed_out at_10_10 origin Up
    (demo_world signed_out) = (Returned tt, demo_world signed_out).
Proof.
  split; [reflexivity|]. split; [left; reflexivity|].
  destruct (guards_leave_canvas_and_log demo_browser signed_out
              at_10_10 origin Up (demo_world signed_out))
    as (Hstart & Hdraw).
  split.
  - destruct (Hstart eq_refl) as (Hcanvas & _). exact Hcanvas.
  - exact (Hdraw (or_intror eq_refl)).
Defined.

Lemma handleAdjust_100_100_identity_witness :
  brightness initialState = 100%float /\
  contrast initialState = 100%float /\
  Forall is_byte (data (bitmap (canvas (demo_world initialState)))) /\
  opaque (data (bitmap (canvas (demo_world initialState)))) = true /\
  bitmap (canvas (snd (handleAdjust demo_read_back initialState
                         (demo_world initialState)))) = red_pixel /\
  fst (handleAdjust demo_read_back initialState (demo_world initialState)) =
    Returned tt.
Proof.
  assert (Forall is_byte (data (bitmap (canvas (demo_world initialState)))))
    as Hbytes by (repeat constructor; unfold is_byte; lia).
  split; [reflexivity|]. split; [reflexivity|]. split; [exact Hbytes|].
  split; [reflexivity|].
  destruct (handleAdjust_100_100_identity demo_read_back initialState
              (demo_world initialState) eq_refl eq_refl Hbytes)
    as (_ & _ & _ & Hopaque & _ & Hreturns & _).
  split; [exact (Hopaque eq_refl)|].
  apply Hreturns; discriminate.
Defined.

(* ================================================================= *)
(** ** Further properties of the handlers *)

(** *** Signing in and up *)

(** Proofs by evaluation: the world and its store are opened into their
    fields, then the handler is run on them. *)
Ltac open_world w :=
  let st := fresh "st" in
  destruct w as [st wcanvas wdb wimages wlog];
  destruct wdb as [wdrawings wstrokes];
  destruct st as [sDrawing sColor sBrush sUser sSaved sCurrent sLoading
                  sMessage sMode sEmail sPassword sDropdown sImage
                  sBrightness sContrast].

Ltac open_state r :=
  destruct r as [rDrawing rColor rBrush rUser rSaved rCurrent rLoading
                 rMessage rMode rEmail rPassword rDropdown rImage
                 rBrightness rContrast].

Ltac crunch :=
  cbv beta iota zeta delta
    [bind ret throw try_catch await settle setState emit paint withCtx
     startImage clearCanvas loadSavedDrawings createNewDrawing
     react canvas db images log bitmap ctx fst snd render
     isDrawing currentColor brushSize user savedDrawings currentDrawingId
     isLoading message authMode email password showAuthDropdown imageLoaded
     brightness contrast
     setIsDrawing setCurrentColor setBrushSize setUser setSavedDrawings
     setCurrentDrawingId setIsLoading setMessage setEmail setPassword
     setShowAuthDropdown setAuthMode setImageLoaded setBrightness setContrast
     auth_user auth_error Response.data Response.error Response.ok
     Response.failed db_list db_get db_insert db_update db_append
     drawings drawing_strokes].

Ltac crunch_in H :=
  cbv beta iota zeta delta
    [bind ret throw try_catch await settle setState emit paint withCtx
     startImage clearCanvas loadSavedDrawings createNewDrawing
     react canvas db images log bitmap ctx fst snd render
     isDrawing currentColor brushSize user savedDrawings currentDrawingId
     isLoading message authMode email password showAuthDropdown imageLoaded
     brightness contrast
     setIsDrawing setCurrentColor setBrushSize setUser setSavedDrawings
     setCurrentDrawingId setIsLoading setMessage setEmail setPassword
     setShowAuthDropdown setAuthMode setImageLoaded setBrightness setContrast
     auth_user auth_error Response.data Response.error Response.ok
     Response.failed db_list db_get db_insert db_update db_append
     drawings drawing_strokes] in H.

(** X1. Whatever the provider and the backend answer, [signIn] returns
    normally and leaves the loading flag off.  When the provider refuses the
    credentials or the call throws, the only request made is the sign-in
    itself, the error is the status message, and the identity, the Drawing
    list, the current-Drawing id, the typed e-mail and password and the open
    form are all as they were. *)
Theorem signIn_failure_keeps_form :
  forall (r : State) (net_list net_create : Net) (p : Pick)
         (now_name now_temp : Z) (w : World),
    (forall auth : Settled AuthResponse,
       let run := signIn r auth net_list net_create p now_name now_temp w in
       fst run = Returned tt /\ isLoading (react (snd run)) = false) /\
    (forall (auth : Settled AuthResponse) (e : Error.t),
       auth = Rejected e \/
       (exists u, auth = Fulfilled (mkAuthResponse u (Some e))) ->
       let run := signIn r auth net_list net_create p now_name now_temp w in
       react (snd run) =
         setIsLoading false
           (setMessage ("Error signing in: " ++ Error.message e)
              (setIsLoading true (react w))) /\
       user (react (snd run)) = user (react w) /\
       savedDrawings (react (snd run)) = savedDrawings (react w) /\
       currentDrawingId (react (snd run)) = currentDrawingId (react w) /\
       email (react (snd run)) = email (react w) /\
       password (react (snd run)) = password (react w) /\
       showAuthDropdown (react (snd run)) = showAuthDropdown (react w) /\
       db (snd run) = db w /\
       canvas (snd run) = canvas w /\
       log (snd run) = log w ++ [Request (QSignIn (email r) (password r))]).
Proof.
  intros r net_list net_create p now_name now_temp w. split.
  - intros auth. open_world w. open_state r. unfold signIn. crunch.
    destruct auth as [[au [ae|]]|e]; [split; reflexivity| |split; reflexivity].
    destruct rUser as [u|]; [|destruct net_list; split; reflexivity].
    destruct net_list, net_create; try (split; reflexivity);
      match goal with
      | |- context [existsb ?f ?l] => destruct (existsb f l)
      end; split; reflexivity.
  - intros auth e [Hauth|[u Hauth]]; subst auth; cbv zeta;
      repeat split; reflexivity.
Qed.

(** X2. [signUp] never establishes a session: whatever the provider
    answers it returns normally with the loading flag off and leaves the
    identity, the Drawing list, the current-Drawing id, the canvas and the
    tables as they were.  Accepted, it clears the form, closes it and
    switches it to sign-in mode; refused, it keeps what was typed and shows
    the error. *)
Theorem signUp_never_signs_in :
  forall (r : State) (w : World),
    (forall reply : Settled AuthResponse,
       let run := signUp r reply w in
       fst run = Returned tt /\
       isLoading (react (snd run)) = false /\
       user (react (snd run)) = user (react w) /\
       savedDrawings (react (snd run)) = savedDrawings (react w) /\
       currentDrawingId (react (snd run)) = currentDrawingId (react w) /\
       canvas (snd run) = canvas w /\
       db (snd run) = db w) /\
    (forall u : option User.t,
       let run := signUp r (Fulfilled (mkAuthResponse u None)) w in
       authMode (react (snd run)) = "signin" /\
       email (react (snd run)) = "" /\
       password (react (snd run)) = "" /\
       showAuthDropdown (react (snd run)) = false) /\
    (forall (reply : Settled AuthResponse) (e : Error.t),
       reply = Rejected e \/
       (exists u, reply = Fulfilled (mkAuthResponse u (Some e))) ->
       let run := signUp r reply w in
       message (react (snd run)) = ("Error signing up: " ++ Error.message e)%string /\
       authMode (react (snd run)) = authMode (react w) /\
       email (react (snd run)) = email (react w) /\
       password (react (snd run)) = password (react w) /\
       showAuthDropdown (react (snd run)) = showAuthDropdown (react w)).
Proof.
  intros r w. split; [|split].
  - intros reply. cbv zeta.
    destruct reply as [[au [ae|]]|e]; repeat split; reflexivity.
  - intros u. cbv zeta. repeat split; reflexivity.
  - intros reply e [Hr|[u Hr]]; subst reply; cbv zeta;
      repeat split; reflexivity.
Qed.

(** *** Listing, saving and loading *)

(** X3. A list request that fails, by an error answer or by throwing,
    keeps the Drawing list that was there and shows the error; one that is
    answered replaces the list by one summary per row of the table, and
    shows nothing. *)
Theorem loadSavedDrawings_failure_keeps_list :
  forall (w : World),
    (forall (net : Net) (e : Error.t),
       net = Refused e \/ net = Down e ->
       let run := loadSavedDrawings net w in
       fst run = Returned tt /\
       savedDrawings (react (snd run)) = savedDrawings (react w) /\
       message (react (snd run)) =
         ("Error loading drawings: " ++ Error.message e)%string /\
       db (snd run) = db w) /\
    (let run := loadSavedDrawings Up w in
     fst run = Returned tt /\
     List.length (savedDrawings (react (snd run))) =
       List.length (drawings (db w)) /\
     Permutation (map Drawing.s_id (savedDrawings (react (snd run))))
       (map Drawing.id (drawings (db w))) /\
     message (react (snd run)) = message (react w)).
Proof.
  intros w. split.
  - intros net e [Hn|Hn]; subst net; cbv zeta; repeat split; reflexivity.
  - cbv zeta. split; [reflexivity|]. split; [|split; [|reflexivity]].
    + change (savedDrawings (react (snd (loadSavedDrawings Up w))))
        with (map Drawing.summary_of (order_desc (drawings (db w)))).
      rewrite length_map. apply Permutation_length, order_desc_perm.
    + change (savedDrawings (react (snd (loadSavedDrawings Up w))))
        with (map Drawing.summary_of (order_desc (drawings (db w)))).
      rewrite map_map.
      apply Permutation_map with (f := Drawing.id), order_desc_perm.
Qed.

Lemma order_desc_newest_last (l : list Drawing.t) (row : Drawing.t) :
  Forall (fun d => Drawing.created_at d < Drawing.created_at row) l ->
  order_desc (l ++ [row]) = row :: order_desc l.
Proof.
  unfold order_desc. induction l as [|h t IH]; intros Hall; cbn.
  - reflexivity.
  - inversion Hall as [|? ? Hh Ht]; subst. rewrite (IH Ht). cbn.
    destruct (Drawing.created_at row <? Drawing.created_at h) eqn:E.
    + apply Z.ltb_lt in E. lia.
    + reflexivity.
Qed.

Lemma filter_has_id_fresh (i : string) (l : list Drawing.t) :
  existsb (has_id i) l = false -> filter (has_id i) l = [].
Proof.
  induction l as [|h t IH]; cbn; [reflexivity|].
  destruct (has_id i h); cbn; [discriminate|exact IH].
Qed.

(** X4. After a successful save whose server timestamp is later than that
    of every stored drawing, the refreshed Drawing list starts with the
    drawing just saved, carrying the exported snapshot, and goes on with the
    listing of the drawings that were there. *)
Theorem saveDrawing_lists_new_drawing_first :
  forall (B : Browser) (r : State) (u : User.t) (answer : option string)
         (now : Z) (p : Pick) (w : World),
    user r = Some u ->
    existsb (has_id (pick_id p)) (drawings (db w)) = false ->
    Forall (fun d => Drawing.created_at d < pick_time p) (drawings (db w)) ->
    savedDrawings (react (snd (saveDrawing B r answer now Up p Up w))) =
      Drawing.mkSummary (pick_id p)
        (or_default answer ("Drawing " ++ JS.String_of_Z now)) (pick_time p)
        (Some (toDataURL B (bitmap (canvas w))))
      :: map Drawing.summary_of (order_desc (drawings (db w))).
Proof.
  intros B r u answer now p w Hu Hfresh Hnew.
  open_world w. open_state r. cbn [user] in Hu. subst rUser.
  cbn [db drawings] in Hfresh, Hnew.
  unfold saveDrawing. crunch. rewrite Hfresh. crunch.
  rewrite order_desc_newest_last by exact Hnew. reflexivity.
Qed.

(** X5. Without an identity in the render [saveDrawing] sends nothing: it
    only shows the sign-in notice.  With one, a save whose insert fails (an
    error answer, a taken key, a thrown call) shows the error and leaves the
    current-Drawing id, the Drawing list, the canvas and the tables as they
    were; no list request follows. *)
Theorem saveDrawing_failure_keeps_current :
  forall (B : Browser) (r : State) (answer : option string) (now : Z)
         (net_insert : Net) (p : Pick) (net_list : Net) (w : World),
    (user r = None ->
     saveDrawing B r answer now net_insert p net_list w =
       (Returned tt,
        mkWorld (setMessage "Please sign in first!" (react w)) (canvas w) (db w)
          (images w) (log w))) /\
    (forall u : User.t,
       user r = Some u ->
       match fst (db_insert net_insert p
                    (Drawing.mkValues
                       (or_default answer ("Drawing " ++ JS.String_of_Z now))
                       true (Some (toDataURL B (bitmap (canvas w)))) (User.id u))
                    (db w)) with
       | Fulfilled resp => Response.error resp <> None
       | Rejected _ => True
       end ->
       let run := saveDrawing B r answer now net_insert p net_list w in
       fst run = Returned tt /\
       (exists msg,
          react (snd run) =
            setMessage ("Error saving drawing: " ++ msg) (react w)) /\
       currentDrawingId (react (snd run)) = currentDrawingId (react w) /\
       savedDrawings (react (snd run)) = savedDrawings (react w) /\
       canvas (snd run) = canvas w /\
       db (snd run) = db w /\
       exists v, log (snd run) = log w ++ [Request (QInsertDrawing v)]).
Proof.
  intros B r answer now net_insert p net_list w. split.
  - intros Hu. unfold saveDrawing. rewrite Hu. reflexivity.
  - intros u Hu Hfail. cbv zeta.
    open_world w. open_state r. cbn [user] in Hu. subst rUser.
    unfold saveDrawing. crunch. crunch_in Hfail.
    destruct net_insert as [|e|e].
    + destruct (existsb (has_id (pick_id p)) wdrawings).
      * repeat split; eauto.
      * exfalso. now apply Hfail.
    + repeat split; eauto.
    + repeat split; eauto.
Qed.

Lemma saveDrawing_saved (B : Browser) (r : State) (u : User.t)
  (answer : option string) (now : Z) (p : Pick) (net_list : Net) (w : World) :
  user r = Some u ->
  existsb (has_id (pick_id p)) (drawings (db w)) = false ->
  let w1 := snd (saveDrawing B r answer now Up p net_list w) in
  drawings (db w1) =
    drawings (db w) ++
      [Drawing.mk (pick_id p)
         (or_default answer ("Drawing " ++ JS.String_of_Z now)) (pick_time p)
         (User.id u) true (Some (toDataURL B (bitmap (canvas w))))] /\
  canvas w1 = canvas w /\
  currentDrawingId (react w1) = Some (pick_id p).
Proof.
  intros Hu Hfresh. cbv zeta.
  open_world w. open_state r. cbn [user] in Hu. subst rUser.
  cbn [db drawings] in Hfresh.
  unfold saveDrawing. crunch. rewrite Hfresh.
  destruct net_list; repeat split.
Qed.

Lemma loadDrawing_fetched (i : string) (row : Drawing.t) (s : string) (w : World) :
  filter (has_id i) (drawings (db w)) = [row] ->
  Drawing.canvas_data row = Some s ->
  JS.truthy (Some s) = true ->
  let w1 := snd (loadDrawing i Up w) in
  fst (loadDrawing i Up w) = Returned tt /\
  currentDrawingId (react w1) = Some i /\
  canvas w1 = canvas w /\
  db w1 = db w /\
  images w1 = images w ++ [s].
Proof.
  intros Hrow Hcd Hs. cbv zeta.
  destruct s as [|a s']; [discriminate Hs|].
  open_world w. cbn [db drawings] in Hrow.
  unfold loadDrawing. crunch.
  rewrite Hrow. cbv beta iota. rewrite Hcd. repeat split.
Qed.

Lemma image_settles_loaded (B : Browser) (s : string) (img : Bitmap) (w : World) :
  decode_image B s = Some img ->
  let w1 := snd (image_settles B s w) in
  react w1 = react w /\
  bitmap (canvas w1) = drawImage B (clearRect_all (bitmap (canvas w))) img /\
  db w1 = db w.
Proof.
  intros Hdec. cbv zeta. unfold image_settles. rewrite Hdec. repeat split.
Qed.

(** X6. Save, then open what was saved: when the codec can read back what
    it wrote, a successful save followed by [loadDrawing] of the new id and
    the image's load event ends with the new id current and the canvas
    cleared and redrawn from the decoded snapshot of the canvas as it was at
    the save. *)
Theorem save_then_load_redraws_snapshot :
  forall (B : Browser) (r : State) (u : User.t) (answer : option string)
         (now : Z) (p : Pick) (net_list : Net) (img : Bitmap) (w : World),
    user r = Some u ->
    existsb (has_id (pick_id p)) (drawings (db w)) = false ->
    JS.truthy (Some (toDataURL B (bitmap (canvas w)))) = true ->
    decode_image B (toDataURL B (bitmap (canvas w))) = Some img ->
    let saved := snd (saveDrawing B r answer now Up p net_list w) in
    let opened := snd (loadDrawing (pick_id p) Up saved) in
    let shown := snd (image_settles B (toDataURL B (bitmap (canvas w))) opened) in
    fst (loadDrawing (pick_id p) Up saved) = Returned tt /\
    currentDrawingId (react shown) = Some (pick_id p) /\
    bitmap (canvas opened) = bitmap (canvas w) /\
    bitmap (canvas shown) = drawImage B (clearRect_all (bitmap (canvas w))) img.
Proof.
  intros B r u answer now p net_list img w Hu Hfresh Htruthy Hdec. cbv zeta.
  destruct (saveDrawing_saved B r u answer now p net_list w Hu Hfresh)
    as (Hrows & Hcanvas & _).
  cbv zeta in Hrows, Hcanvas.
  set (saved := snd (saveDrawing B r answer now Up p net_list w)) in *.
  assert (filter (has_id (pick_id p)) (drawings (db saved)) =
            [Drawing.mk (pick_id p)
               (or_default answer ("Drawing " ++ JS.String_of_Z now))
               (pick_time p) (User.id u) true
               (Some (toDataURL B (bitmap (canvas w))))]) as Hrow.
  { rewrite Hrows, filter_app, filter_has_id_fresh by exact Hfresh.
    cbn [filter app]. unfold has_id at 1. cbn [Drawing.id].
    rewrite String.eqb_refl. reflexivity. }
  destruct (loadDrawing_fetched (pick_id p) _ _ saved Hrow eq_refl Htruthy)
    as (Hret & Hid & Hcv & _ & _).
  cbv zeta in Hid, Hcv.
  set (opened := snd (loadDrawing (pick_id p) Up saved)) in *.
  destruct (image_settles_loaded B _ img opened Hdec) as (Hreact & Hbits & _).
  cbv zeta in Hreact, Hbits.
  rewrite Hreact, Hbits, Hcv, Hcanvas, Hid. repeat split; assumption.
Qed.

(** X7. A [loadDrawing] whose fetch fails (the id is in no row, or in more
    than one, the backend answers with an error, or the call throws) only
    sets the status message [Error loading drawing]: the current-Drawing id,
    the canvas, the pending images and the tables are as they were. *)
Theorem loadDrawing_failure_only_message :
  forall (i : string) (net : Net) (w : World),
    match db_get net i (db w) with
    | Fulfilled resp => Response.error resp <> None
    | Rejected _ => True
    end ->
    let run := loadDrawing i net w in
    fst run = Returned tt /\
    react (snd run) = setMessage "Error loading drawing" (react w) /\
    currentDrawingId (react (snd run)) = currentDrawingId (react w) /\
    canvas (snd run) = canvas w /\
    images (snd run) = images w /\
    db (snd run) = db w.
Proof.
  intros i net w Hfail. cbv zeta.
  open_world w. cbn [db] in Hfail. unfold loadDrawing. crunch. crunch_in Hfail.
  destruct net as [|e|e].
  - destruct (filter (has_id i) wdrawings) as [|row [|row' l]].
    + repeat split.
    + exfalso. now apply Hfail.
    + repeat split.
  - repeat split.
  - repeat split.
Qed.

(** X8. Two drawings opened in quick succession: when the image of the
    second is decoded before the image of the first, the canvas ends up
    showing the first drawing while the current-Drawing id is the second's. *)
Theorem loadDrawing_late_image_wins :
  forall (B : Browser) (i j : string) (ri rj : Drawing.t) (si sj : string)
         (imi imj : Bitmap) (w : World),
    filter (has_id i) (drawings (db w)) = [ri] ->
    filter (has_id j) (drawings (db w)) = [rj] ->
    Drawing.canvas_data ri = Some si ->
    Drawing.canvas_data rj = Some sj ->
    JS.truthy (Some si) = true ->
    JS.truthy (Some sj) = true ->
    decode_image B si = Some imi ->
    decode_image B sj = Some imj ->
    let first := snd (loadDrawing i Up w) in
    let second := snd (loadDrawing j Up first) in
    let after_j := snd (image_settles B sj second) in
    let after_i := snd (image_settles B si after_j) in
    currentDrawingId (react after_i) = Some j /\
    bitmap (canvas after_i) =
      drawImage B (clearRect_all (bitmap (canvas after_j))) imi /\
    bitmap (canvas after_j) = drawImage B (clearRect_all (bitmap (canvas w))) imj.
Proof.
  intros B i j ri rj si sj imi imj w Hi Hj Hci Hcj Hti Htj Hdi Hdj. cbv zeta.
  destruct (loadDrawing_fetched i ri si w Hi Hci Hti) as (_ & _ & Hcv1 & Hdb1 & _).
  cbv zeta in Hcv1, Hdb1.
  set (first := snd (loadDrawing i Up w)) in *.
  rewrite <- Hdb1 in Hj.
  destruct (loadDrawing_fetched j rj sj first Hj Hcj Htj)
    as (_ & Hid2 & Hcv2 & _ & _).
  cbv zeta in Hid2, Hcv2.
  set (second := snd (loadDrawing j Up first)) in *.
  destruct (image_settles_loaded B sj imj second Hdj) as (Hr3 & Hb3 & _).
  cbv zeta in Hr3, Hb3.
  set (after_j := snd (image_settles B sj second)) in *.
  destruct (image_settles_loaded B si imi after_j Hdi) as (Hr4 & Hb4 & _).
  cbv zeta in Hr4, Hb4.
  rewrite Hr4, Hr3, Hid2, Hb4, Hb3, Hcv2, Hcv1. repeat split.
Qed.

(** *** Strokes *)

Lemma startDrawing_begins (r : State) (u : User.t) (e : MouseEvent)
  (rect : DOMRect) (w : World) :
  user r = Some u ->
  finite_point (pointer e rect) = true ->
  startDrawing r e rect w =
    (Returned tt,
     mkWorld (setIsDrawing true (react w))
       (mkCanvas (bitmap (canvas w))
          (with_path [[pointer e rect]] (ctx (canvas w))))
       (db w) (images w) (log w)).
Proof.
  intros Hu Hfin. unfold startDrawing. rewrite Hu.
  unfold finite_point in Hfin.
  cbv beta iota delta [bind setState withCtx canvas ctx bitmap react db images log].
  unfold moveTo. rewrite Hfin. reflexivity.
Qed.

Lemma draw_extends (B : Browser) (r : State) (u : User.t) (e : MouseEvent)
  (rect : DOMRect) (net : Net) (w : World) :
  isDrawing r = true ->
  user r = Some u ->
  finite_point (pointer e rect) = true ->
  let c := with_path (extend_last (pointer e rect) (path (ctx (canvas w))))
             (set_lineWidth (brushSize r)
                (set_strokeStyle (currentColor r) (ctx (canvas w)))) in
  draw B r e rect net w =
    (Returned tt,
     mkWorld (react w)
       (mkCanvas (stroke_raster B (bitmap (canvas w)) c) c)
       (if delivered (e, net)
        then mkDatabase (drawings (db w))
               (drawing_strokes (db w) ++ [stroke_row r u e rect])
        else db w)
       (images w)
       ((log w ++ [Paint (stroke_raster B (bitmap (canvas w)) c)])
          ++ [Request (QInsertStroke (stroke_row r u e rect))])).
Proof.
  intros Hd Hu Hfin. cbv zeta. unfold draw. rewrite Hd, Hu.
  unfold finite_point in Hfin.
  cbv beta iota delta [negb bind setState withCtx paint try_catch await ret
                       canvas ctx bitmap react db images log].
  unfold lineTo. rewrite Hfin. destruct net; reflexivity.
Qed.

Lemma play_pointer_moves (B : Browser) (rect : DOMRect) (u : User.t) :
  forall (ms : list (MouseEvent * Net)) (w : World) (l : list Point),
    isDrawing (react w) = true ->
    user (react w) = Some u ->
    path (ctx (canvas w)) = [l] ->
    Forall (fun m => finite_point (pointer (fst m) rect) = true) ms ->
    path (ctx (canvas (play B (pointer_moves rect ms) w))) =
      [l ++ map (fun m => pointer (fst m) rect) ms] /\
    react (play B (pointer_moves rect ms) w) = react w /\
    List.length (drawing_strokes (db (play B (pointer_moves rect ms) w))) =
      (List.length (drawing_strokes (db w)) + List.length (filter delivered ms))%nat.
Proof.
  induction ms as [|[e net] ms IH]; intros w l Hd Hu Hp Hfin.
  - cbn [pointer_moves map play filter List.length]. rewrite app_nil_r.
    split; [assumption|]. split; [reflexivity|lia].
  - inversion Hfin as [|? ? Hm Hrest]; subst. cbn [fst] in Hm.
    change (pointer_moves rect ((e, net) :: ms))
      with (MouseMove e rect net :: pointer_moves rect ms).
    cbn [play offered]. unfold dispatch, render.
    rewrite (draw_extends B (react w) u e rect net w Hd Hu Hm). cbn [snd].
    match goal with
    | |- context [play B _ ?w1] =>
        destruct (IH w1 (l ++ [pointer e rect])) as (Hp2 & Hr2 & Hn2);
          [exact Hd|exact Hu|cbn; rewrite Hp; reflexivity|exact Hrest|]
    end.
    rewrite Hp2, Hr2, Hn2. cbn [react map fst app filter].
    rewrite <- app_assoc. split; [reflexivity|]. split; [reflexivity|].
    destruct (delivered (e, net)); cbn [db drawing_strokes List.length];
      rewrite ?length_app; cbn [List.length]; lia.
Qed.

(** X9. One stroke of a signed-in user, from mouse-down through any
    number of pointer moves: whatever path the context held before is
    dropped, the path is the single line through the positions in the order
    they came, the stroke stays in progress, and the Stroke Log has grown by
    exactly one row for every move whose append was delivered. *)
Theorem stroke_builds_one_path :
  forall (B : Browser) (u : User.t) (e0 : MouseEvent) (rect : DOMRect)
         (ms : list (MouseEvent * Net)) (w : World),
    user (react w) = Some u ->
    finite_point (pointer e0 rect) = true ->
    Forall (fun m => finite_point (pointer (fst m) rect) = true) ms ->
    let w' := play B (MouseDown e0 rect :: pointer_moves rect ms) w in
    path (ctx (canvas w')) =
      [pointer e0 rect :: map (fun m => pointer (fst m) rect) ms] /\
    isDrawing (react w') = true /\
    List.length (drawing_strokes (db w')) =
      (List.length (drawing_strokes (db w)) + List.length (filter delivered ms))%nat.
Proof.
  intros B u e0 rect ms w Hu H0 Hms. cbv zeta. cbn [play offered].
  unfold dispatch, render.
  rewrite (startDrawing_begins (react w) u e0 rect w Hu H0). cbn [snd].
  match goal with
  | |- context [play B _ ?w1] =>
      destruct (play_pointer_moves B rect u ms w1 [pointer e0 rect])
        as (Hp2 & Hr2 & Hn2); [reflexivity|exact Hu|reflexivity|exact Hms|]
  end.
  rewrite Hp2, Hr2, Hn2. repeat split.
Qed.

(** X10. Once the mouse is up (or has left the canvas) a pointer move
    changes nothing: the page handles it from a render in which no stroke is
    in progress.  A second mouse-up changes nothing either. *)
Theorem mouse_up_ends_stroke :
  forall (B : Browser) (e : MouseEvent) (rect : DOMRect) (net : Net) (w : World),
    let released := snd (dispatch B MouseUp w) in
    dispatch B (MouseMove e rect net) released = (Returned tt, released) /\
    dispatch B MouseUp released = (Returned tt, released) /\
    canvas released = canvas w /\
    db released = db w.
Proof.
  intros B e rect net w. cbv zeta. repeat split.
Qed.

Lemma signIn_from_form (r : State) (u : User.t) (net_list net_create : Net)
  (p : Pick) (now_name now_temp : Z) (w : World) :
  user r = None ->
  let w' := snd (signIn r (Fulfilled (mkAuthResponse (Some u) None))
                   net_list net_create p now_name now_temp w) in
  user (react w') = Some u /\
  isDrawing (react w') = isDrawing (react w) /\
  currentColor (react w') = currentColor (react w) /\
  brushSize (react w') = brushSize (react w) /\
  currentDrawingId (react w') = currentDrawingId (react w) /\
  canvas w' = canvas w /\
  db w' = db w.
Proof.
  intros Hu. cbv zeta. unfold signIn, createNewDrawing. rewrite Hu.
  destruct net_list; repeat split.
Qed.

(** X11. Sign in, then draw: because the creation call of [signIn] is
    made from the render of the sign-in form, no drawing is created, and the
    first segment drawn after signing in on a page with no current drawing is
    logged with no drawing id. *)
Theorem first_stroke_after_signIn_has_no_drawing :
  forall (B : Browser) (u : User.t) (net_list net_create : Net) (p : Pick)
         (now_name now_temp : Z) (e0 e1 : MouseEvent) (rect : DOMRect)
         (w : World),
    offered w (SignInClick (Fulfilled (mkAuthResponse (Some u) None))
                 net_list net_create p now_name now_temp) = true ->
    currentDrawingId (react w) = None ->
    finite_point (pointer e0 rect) = true ->
    finite_point (pointer e1 rect) = true ->
    let w' :=
      play B
        [SignInClick (Fulfilled (mkAuthResponse (Some u) None))
           net_list net_create p now_name now_temp;
         MouseDown e0 rect;
         MouseMove e1 rect Up] w in
    drawings (db w') = drawings (db w) /\
    currentDrawingId (react w') = None /\
    drawing_strokes (db w') =
      drawing_strokes (db w) ++
        [Stroke.mk None (User.id u)
           (JS.Math_round (PrimFloat.sub (clientX e1) (left rect)))
           (JS.Math_round (PrimFloat.sub (clientY e1) (top rect)))
           (currentColor (react w)) (brushSize (react w))].
Proof.
  intros B u net_list net_create p now_name now_temp e0 e1 rect w Hoff Hcur
         H0 H1.
  cbv zeta. cbn [play]. rewrite Hoff.
  cbn [offered] in Hoff. apply andb_prop in Hoff. destruct Hoff as [Hoff _].
  apply andb_prop in Hoff. destruct Hoff as [Hoff _].
  apply andb_prop in Hoff. destruct Hoff as [Hoff _].
  apply negb_true_iff, signed_false in Hoff.
  cbn [offered play].
  change (dispatch B (SignInClick (Fulfilled (mkAuthResponse (Some u) None))
                        net_list net_create p now_name now_temp) w)
    with (signIn (render w) (Fulfilled (mkAuthResponse (Some u) None))
            net_list net_create p now_name now_temp w).
  destruct (signIn_from_form (render w) u net_list net_create p now_name
              now_temp w Hoff) as (Hu1 & _ & Hc1 & Hb1 & Hi1 & Hcv1 & Hdb1).
  cbv zeta in Hu1, Hc1, Hb1, Hi1, Hcv1, Hdb1.
  set (w1 := snd (signIn (render w) (Fulfilled (mkAuthResponse (Some u) None))
                    net_list net_create p now_name now_temp w)) in *.
  change (dispatch B (MouseDown e0 rect) w1)
    with (startDrawing (react w1) e0 rect w1).
  rewrite (startDrawing_begins (react w1) u e0 rect w1 Hu1 H0). cbn [snd].
  match goal with
  | |- context [dispatch B (MouseMove e1 rect Up) ?w2] =>
      change (dispatch B (MouseMove e1 rect Up) w2)
        with (draw B (react w2) e1 rect Up w2);
      rewrite (draw_extends B (react w2) u e1 rect Up w2 eq_refl Hu1 H1)
  end.
  cbn [snd delivered db drawings drawing_strokes react currentDrawingId
       setIsDrawing].
  rewrite Hdb1, Hi1, Hcur. unfold stroke_row.
  cbn [currentDrawingId setIsDrawing currentColor brushSize pointer fst snd].
  rewrite Hi1, Hc1, Hb1, Hcur. repeat split.
Qed.

(** X13. Clearing the canvas does not end the path of a stroke in
    progress: the next pointer move strokes the whole path since the
    mouse-down, earlier segments included, onto the cleared buffer. *)
Theorem clear_during_stroke_repaints_path :
  forall (B : Browser) (r : State) (u : User.t) (e : MouseEvent) (rect : DOMRect)
         (net : Net) (w : World),
    isDrawing r = true ->
    user r = Some u ->
    finite_point (pointer e rect) = true ->
    let cleared := snd (clearCanvas w) in
    let c := with_path (extend_last (pointer e rect) (path (ctx (canvas w))))
               (set_lineWidth (brushSize r)
                  (set_strokeStyle (currentColor r) (ctx (canvas w)))) in
    ctx (canvas cleared) = ctx (canvas w) /\
    is_blank (bitmap (canvas cleared)) /\
    bitmap (canvas (snd (draw B r e rect net cleared))) =
      stroke_raster B (clearRect_all (bitmap (canvas w))) c.
Proof.
  intros B r u e rect net w Hd Hu Hfin. cbv zeta.
  split; [reflexivity|]. split; [apply blank_is_blank|].
  rewrite (draw_extends B r u e rect net _ Hd Hu Hfin). reflexivity.
Qed.
(** *** The image tools *)

(** X14. Whatever the two sliders say and however the canvas stores what
    is written to it, [handleAdjust] keeps the size of the canvas and the
    number of its bytes, leaves every alpha byte as it read it, and touches
    neither the context, nor React's store, nor the backend.  It returns
    when the canvas has pixels; when it has none it throws out of
    [getImageData] and changes nothing at all. *)
Theorem handleAdjust_keeps_shape_and_alpha :
  forall (q : Z -> Z -> Byte.byte) (r : State) (w : World),
    let w' := snd (handleAdjust q r w) in
    width (bitmap (canvas w')) = width (bitmap (canvas w)) /\
    height (bitmap (canvas w')) = height (bitmap (canvas w)) /\
    List.length (data (bitmap (canvas w'))) =
      List.length (data (bitmap (canvas w))) /\
    (forall k,
       nth (4 * k + 3) (data (bitmap (canvas w'))) 0 =
         nth (4 * k + 3) (data (bitmap (canvas w))) 0) /\
    ctx (canvas w') = ctx (canvas w) /\
    react w' = react w /\
    db w' = db w /\
    (width (bitmap (canvas w)) <> 0 ->
     height (bitmap (canvas w)) <> 0 ->
     fst (handleAdjust q r w) = Returned tt) /\
    (width (bitmap (canvas w)) = 0 \/ height (bitmap (canvas w)) = 0 ->
     exists e, handleAdjust q r w = (Thrown e, w)).
Proof.
  intros q r w. cbv zeta.
  assert (forall P : World -> Prop,
             P w ->
             (width (bitmap (canvas w)) <> 0 ->
              height (bitmap (canvas w)) <> 0 ->
              P (snd (handleAdjust q r w))) ->
             P (snd (handleAdjust q r w))) as Hcases.
  { intros P Hthrown Hreturned.
    destruct (handleAdjust_cases q r w) as [[Hw Hh]|Hempty]; [now apply Hreturned|].
    destruct (handleAdjust_throws q r w Hempty) as [e He]. now rewrite He. }
  set (written := adjust_data (PrimFloat.div (brightness r) 100)
                    (PrimFloat.div (contrast r) 100) (data (bitmap (canvas w)))).
  destruct (adjust_data_shape (PrimFloat.div (brightness r) 100)
              (PrimFloat.div (contrast r) 100)
              (List.length (data (bitmap (canvas w))))
              (data (bitmap (canvas w))) (Nat.le_refl _)) as (Hl & Ha & _).
  destruct (read_back_data_shape q (List.length written) written (Nat.le_refl _))
    as (Hl' & Ha' & _).
  fold written in Hl, Ha.
  split.
  { apply Hcases; [reflexivity|]. intros Hw Hh.
    now rewrite (handleAdjust_runs q r w Hw Hh). }
  split.
  { apply Hcases; [reflexivity|]. intros Hw Hh.
    now rewrite (handleAdjust_runs q r w Hw Hh). }
  split.
  { apply Hcases; [reflexivity|]. intros Hw Hh.
    rewrite (handleAdjust_runs q r w Hw Hh). cbn [snd canvas bitmap data].
    fold written. now rewrite Hl', Hl. }
  split.
  { intros k.
    apply (Hcases (fun x => nth (4 * k + 3) (data (bitmap (canvas x))) 0 =
                            nth (4 * k + 3) (data (bitmap (canvas w))) 0));
      [reflexivity|]. intros Hw Hh.
    rewrite (handleAdjust_runs q r w Hw Hh). cbn [snd canvas bitmap data].
    fold written. now rewrite Ha', Ha. }
  split.
  { apply Hcases; [reflexivity|]. intros Hw Hh.
    now rewrite (handleAdjust_runs q r w Hw Hh). }
  split.
  { apply Hcases; [reflexivity|]. intros Hw Hh.
    now rewrite (handleAdjust_runs q r w Hw Hh). }
  split.
  { apply Hcases; [reflexivity|]. intros Hw Hh.
    now rewrite (handleAdjust_runs q r w Hw Hh). }
  split; [intros Hw Hh; now rewrite (handleAdjust_runs q r w Hw Hh)|].
  apply handleAdjust_throws.
Qed.

(** X15. The buffer [handleAdjust] leaves is always a buffer of bytes:
    from a well-formed canvas it leaves a well-formed canvas for every
    brightness and contrast, NaN included, because each store into the pixel
    array clamps at both ends, and whatever the canvas makes of translucent
    pixels.  No value outside 0..255 can reach a saved snapshot this way. *)
Theorem handleAdjust_keeps_bytes :
  forall (q : Z -> Z -> Byte.byte) (r : State) (w : World),
    wf_bitmap (bitmap (canvas w)) ->
    wf_bitmap (bitmap (canvas (snd (handleAdjust q r w)))).
Proof.
  intros q r w Hwf.
  destruct (handleAdjust_cases q r w) as [[Hw0 Hh0]|Hempty].
  - destruct Hwf as (Hw & Hh & Hlen & Hbytes).
    set (written := adjust_data (PrimFloat.div (brightness r) 100)
                      (PrimFloat.div (contrast r) 100) (data (bitmap (canvas w)))).
    destruct (adjust_data_shape (PrimFloat.div (brightness r) 100)
                (PrimFloat.div (contrast r) 100)
                (List.length (data (bitmap (canvas w))))
                (data (bitmap (canvas w))) (Nat.le_refl _)) as (Hl & _ & Hb).
    destruct (read_back_data_shape q (List.length written) written (Nat.le_refl _))
      as (Hl' & _ & Hb' & _).
    fold written in Hl, Hb.
    rewrite (handleAdjust_runs q r w Hw0 Hh0). cbn [snd canvas bitmap].
    fold written. unfold wf_bitmap. cbn [width height data].
    split; [exact Hw|]. split; [exact Hh|]. split.
    + rewrite Hl', Hl. exact Hlen.
    + apply Hb', Hb. exact Hbytes.
  - destruct (handleAdjust_throws q r w Hempty) as [e He]. now rewrite He.
Qed.

(** *** Pixels *)








(** *** Rotation and the brush *)

Lemma dispatch_keeps_caps (B : Browser) (ev : Event) (w : World) :
  lineCap (ctx (canvas (snd (dispatch B ev w)))) = lineCap (ctx (canvas w)) /\
  lineJoin (ctx (canvas (snd (dispatch B ev w)))) = lineJoin (ctx (canvas w)).
Proof.
  destruct ev; unfold dispatch; cbv zeta; try (split; reflexivity).
  - unfold signIn, createNewDrawing.
    destruct auth as [[au [ae|]]|e]; try (split; reflexivity).
    destruct (user (render w)) as [u|];
      [|destruct net_list; split; reflexivity].
    open_world w. crunch.
    destruct net_list, net_create; try (split; reflexivity);
      destruct (existsb (has_id (pick_id p)) wdrawings); split; reflexivity.
  - destruct reply as [[e|]|e]; split; reflexivity.
  - unfold startDrawing. destruct (user (render w)); [|split; reflexivity].
    cbv beta iota delta [bind setState withCtx snd canvas ctx].
    unfold moveTo. destruct (JS.isFinite _ && JS.isFinite _); split; reflexivity.
  - unfold draw. destruct (isDrawing (render w)); [|split; reflexivity].
    destruct (user (render w)); [|split; reflexivity].
    cbv beta iota delta [negb bind setState withCtx paint try_catch await ret
                         snd canvas ctx db].
    unfold lineTo. destruct (JS.isFinite _ && JS.isFinite _);
      destruct net; split; reflexivity.
  - unfold saveDrawing. destruct (user (render w)); [|split; reflexivity].
    open_world w. crunch. destruct net_insert; try (split; reflexivity).
    destruct (existsb (has_id (pick_id p)) wdrawings);
      [split; reflexivity|]. destruct net_list; split; reflexivity.
  - unfold loadDrawing. open_world w. crunch.
    destruct net; try (split; reflexivity).
    destruct (filter (has_id i) wdrawings) as [|row [|row' l]];
      try (split; reflexivity).
    destruct (Drawing.canvas_data row) as [[|a s]|]; split; reflexivity.
  - unfold image_settles. destruct (decode_image B src); split; reflexivity.
Qed.

Lemma play_keeps_caps (B : Browser) (evs : list Event) :
  forall w : World,
    lineCap (ctx (canvas (play B evs w))) = lineCap (ctx (canvas w)) /\
    lineJoin (ctx (canvas (play B evs w))) = lineJoin (ctx (canvas w)).
Proof.
  induction evs as [|ev rest IH]; intros w; cbn [play]; [split; reflexivity|].
  destruct (offered w ev); [|apply IH].
  destruct (IH (snd (dispatch B ev w))) as (Hc & Hj).
  destruct (dispatch_keeps_caps B ev w) as (Hc' & Hj').
  split; congruence.
Qed.

(** X18. The round brush is set once, when the canvas is mounted, and
    every handler of the drawing page keeps it: after any session the line
    caps and joins are still round.  [handleRotate] resizes the canvas, which
    resets its context, and sets nothing back: from the rotation on, through
    every later event, strokes are painted with butt caps and mitre joins. *)
Theorem rotation_loses_round_brush :
  forall (B : Browser) (rotated : Bitmap -> Bitmap -> list Z)
         (evs : list Event) (w : World),
    (forall ow oh,
       lineCap (ctx (canvas (play B evs (snd (mountCanvas ow oh w))))) = "round" /\
       lineJoin (ctx (canvas (play B evs (snd (mountCanvas ow oh w))))) = "round") /\
    (fst (handleRotate rotated w) = Returned tt ->
     lineCap (ctx (canvas (play B evs (snd (handleRotate rotated w))))) = "butt" /\
     lineJoin (ctx (canvas (play B evs (snd (handleRotate rotated w))))) = "miter").
Proof.
  intros B rotated evs w. split.
  - intros ow oh.
    destruct (play_keeps_caps B evs (snd (mountCanvas ow oh w))) as (Hc & Hj).
    rewrite Hc, Hj. split; reflexivity.
  - intros Hret.
    destruct (play_keeps_caps B evs (snd (handleRotate rotated w))) as (Hc & Hj).
    rewrite Hc, Hj. unfold handleRotate in *.
    destruct ((width (bitmap (canvas w)) =? 0) || (height (bitmap (canvas w)) =? 0));
      [discriminate Hret|]. split; reflexivity.
Qed.

Lemma handleRotate_run (rotated : Bitmap -> Bitmap -> list Z) (w : World) :
  0 < width (bitmap (canvas w)) ->
  0 < height (bitmap (canvas w)) ->
  exists d lg,
    handleRotate rotated w =
      (Returned tt,
       mkWorld (react w)
         (mkCanvas
            (mkBitmap (height (bitmap (canvas w))) (width (bitmap (canvas w))) d)
            default_context)
         (db w) (images w) lg).
Proof.
  intros Hw Hh. unfold handleRotate.
  assert (((width (bitmap (canvas w)) =? 0) || (height (bitmap (canvas w)) =? 0))
          = false) as Hz.
  { apply orb_false_iff. split; apply Z.eqb_neq; lia. }
  rewrite Hz. eexists. eexists. reflexivity.
Qed.

(** X19. [handleRotate] on a canvas with pixels swaps the width and the
    height of the canvas, so that two rotations give the canvas its size
    back, and it drops the current path; on a canvas without pixels it throws
    and changes nothing. *)
Theorem handleRotate_swaps_dimensions :
  forall (rotated rotated' : Bitmap -> Bitmap -> list Z) (w : World),
    (0 < width (bitmap (canvas w)) ->
     0 < height (bitmap (canvas w)) ->
     let once := snd (handleRotate rotated w) in
     let twice := snd (handleRotate rotated' once) in
     fst (handleRotate rotated w) = Returned tt /\
     width (bitmap (canvas once)) = height (bitmap (canvas w)) /\
     height (bitmap (canvas once)) = width (bitmap (canvas w)) /\
     path (ctx (canvas once)) = [] /\
     fst (handleRotate rotated' once) = Returned tt /\
     width (bitmap (canvas twice)) = width (bitmap (canvas w)) /\
     height (bitmap (canvas twice)) = height (bitmap (canvas w)) /\
     react twice = react w /\
     db twice = db w) /\
    (width (bitmap (canvas w)) = 0 \/ height (bitmap (canvas w)) = 0 ->
     handleRotate rotated w = (Thrown InvalidStateError, w)).
Proof.
  intros rotated rotated' w. split.
  - intros Hw Hh. cbv zeta.
    destruct (handleRotate_run rotated w Hw Hh) as (d1 & lg1 & E1).
    rewrite E1. cbn [fst snd].
    match goal with
    | |- context [handleRotate rotated' ?w1] =>
        destruct (handleRotate_run rotated' w1) as (d2 & lg2 & E2);
          [exact Hh|exact Hw|rewrite E2]
    end.
    repeat split.
  - intros Hz. unfold handleRotate.
    assert (((width (bitmap (canvas w)) =? 0) || (height (bitmap (canvas w)) =? 0))
            = true) as Hz'.
    { apply orb_true_iff. rewrite !Z.eqb_eq. exact Hz. }
    rewrite Hz'. reflexivity.
Qed.

(** *** Signed out *)

(** Without an identity, an event other than a sign-in that succeeds
    leaves the tables alone and the identity absent. *)
Lemma dispatch_signed_out (B : Browser) (ev : Event) (w : World) :
  user (react w) = None ->
  signs_in ev = false ->
  offered w ev = true ->
  db (snd (dispatch B ev w)) = db w /\
  user (react (snd (dispatch B ev w))) = None.
Proof.
  intros Hu Hin Hoff.
  destruct ev; unfold dispatch; cbv zeta.
  - open_world w. cbn [react user] in Hu. subst sUser. split; reflexivity.
  - open_world w. cbn [react user] in Hu. subst sUser. split; reflexivity.
  - open_world w. cbn [react user] in Hu. subst sUser. split; reflexivity.
  - unfold signIn, createNewDrawing. unfold render. rewrite Hu.
    open_world w. cbn [react user] in Hu. subst sUser.
    destruct auth as [[[u|] [e|]]|e]; try discriminate Hin;
      crunch; try (split; reflexivity);
      destruct net_list; split; reflexivity.
  - unfold offered, render, signed in Hoff. rewrite Hu in Hoff. discriminate Hoff.
  - open_world w. cbn [react user] in Hu. subst sUser. split; reflexivity.
  - open_world w. cbn [react user] in Hu. subst sUser. split; reflexivity.
  - unfold startDrawing, render. rewrite Hu.
    open_world w. cbn [react user] in Hu. subst sUser. split; reflexivity.
  - unfold draw, render. rewrite Hu.
    destruct (negb (isDrawing (react w))); split; (reflexivity || exact Hu).
  - open_world w. cbn [react user] in Hu. subst sUser. split; reflexivity.
  - unfold saveDrawing, render. rewrite Hu.
    open_world w. cbn [react user] in Hu. subst sUser. split; reflexivity.
  - unfold offered, render, signed in Hoff. rewrite Hu in Hoff. discriminate Hoff.
  - unfold image_settles, img_onload.
    destruct (decode_image B src); split; (reflexivity || exact Hu).
Qed.

Lemma play_signed_out (B : Browser) (evs : list Event) :
  forall w : World,
    user (react w) = None ->
    existsb signs_in evs = false ->
    db (play B evs w) = db w /\ user (react (play B evs w)) = None.
Proof.
  induction evs as [|ev rest IH]; intros w Hu Hin; cbn [play].
  - split; [reflexivity|exact Hu].
  - cbn [existsb] in Hin. apply orb_false_iff in Hin. destruct Hin as [Hev Hrest].
    destruct (offered w ev) eqn:Hoff; [|now apply IH].
    destruct (dispatch_signed_out B ev w Hu Hev Hoff) as [Hdb Hu'].
    destruct (IH (snd (dispatch B ev w)) Hu' Hrest) as [Hdb' Hu''].
    split; [now rewrite Hdb', Hdb|exact Hu''].
Qed.

(** X12. After a successful sign-out, and for as long as no sign-in
    succeeds, no sequence of the events of the drawing page writes either
    backend table, and the identity stays absent.  The drawing handlers in
    particular: a mouse-down only shows the sign-in notice, a pointer move
    does nothing, a click on Save only shows its notice and sends no request,
    and neither a saved drawing nor the sign-out button is there to click.
    The canvas is not protected in the same way: an image tool still writes
    it, as [handleRotate] does when it swaps the sides of the cleared
    canvas. *)
Theorem tables_are_not_written_while_signed_out :
  forall (B : Browser) (w : World),
    let out := snd (signOut (Fulfilled None) w) in
    (forall evs,
       existsb signs_in evs = false ->
       db (play B evs out) = db w /\
       user (react (play B evs out)) = None) /\
    (forall e rect,
       canvas (snd (dispatch B (MouseDown e rect) out)) = canvas out /\
       db (snd (dispatch B (MouseDown e rect) out)) = db out /\
       isDrawing (react (snd (dispatch B (MouseDown e rect) out))) =
         isDrawing (react out)) /\
    (forall e rect net,
       dispatch B (MouseMove e rect net) out = (Returned tt, out)) /\
    (forall answer now net_insert p net_list,
       canvas (snd (dispatch B (SaveClick answer now net_insert p net_list) out)) =
         canvas out /\
       db (snd (dispatch B (SaveClick answer now net_insert p net_list) out)) =
         db out /\
       log (snd (dispatch B (SaveClick answer now net_insert p net_list) out)) =
         log out) /\
    (forall i net, offered out (DrawingClick i net) = false) /\
    (forall reply, offered out (SignOutClick reply) = false) /\
    (forall rotated,
       0 < width (bitmap (canvas w)) ->
       0 < height (bitmap (canvas w)) ->
       fst (handleRotate rotated out) = Returned tt /\
       width (bitmap (canvas (snd (handleRotate rotated out)))) =
         height (bitmap (canvas w)) /\
       height (bitmap (canvas (snd (handleRotate rotated out)))) =
         width (bitmap (canvas w))).
Proof.
  intros B w. cbv zeta.
  split.
  { intros evs Hin.
    destruct (play_signed_out B evs (snd (signOut (Fulfilled None) w)) eq_refl Hin)
      as [Hdb Hu].
    split; [exact Hdb|exact Hu]. }
  split; [intros e rect; repeat split|].
  split.
  { intros e rect net. unfold dispatch, draw, render. cbn.
    destruct (isDrawing (react w)); reflexivity. }
  split; [intros answer now net_insert p net_list; repeat split|].
  split; [reflexivity|]. split; [reflexivity|].
  intros rotated Hw Hh.
  destruct (handleRotate_run rotated (snd (signOut (Fulfilled None) w)) Hw Hh)
    as (d & lg & Hrun).
  rewrite Hrun. repeat split.
Qed.

(** *** The update-based save, creation, upload and session restore *)

Lemma update_rows_spec (i cd nm : string) (l : list Drawing.t) :
  let l' := map (fun row =>
                   if has_id i row
                   then Drawing.mk (Drawing.id row) nm (Drawing.created_at row)
                          (Drawing.created_by row) (Drawing.is_public row) (Some cd)
                   else row) l in
  map Drawing.id l' = map Drawing.id l /\
  map Drawing.created_at l' = map Drawing.created_at l /\
  map Drawing.created_by l' = map Drawing.created_by l /\
  (forall row, In row l -> has_id i row = false -> In row l') /\
  (forall row', In row' l' -> has_id i row' = true ->
                Drawing.canvas_data row' = Some cd /\ Drawing.name row' = nm) /\
  (filter (has_id i) l = [] -> l' = l).
Proof.
  cbv zeta. induction l as [|h t IH]; cbn [map filter].
  - split; [reflexivity|]. split; [reflexivity|]. split; [reflexivity|].
    split; [intros ? []|]. split; [intros ? []|]. reflexivity.
  - destruct IH as (I1 & I2 & I3 & I4 & I5 & I6).
    destruct (has_id i h) eqn:Hh; cbn [Drawing.id Drawing.created_at
                                       Drawing.created_by].
    + rewrite I1, I2, I3.
      split; [reflexivity|]. split; [reflexivity|]. split; [reflexivity|].
      split; [|split].
      * intros row [Hr|Hr] Hn; [subst; congruence|right; now apply I4].
      * intros row' [Hr|Hr] Hy; [subst; split; reflexivity|now apply I5].
      * discriminate.
    + rewrite I1, I2, I3.
      split; [reflexivity|]. split; [reflexivity|]. split; [reflexivity|].
      split; [|split].
      * intros row [Hr|Hr] Hn; [now left|right; now apply I4].
      * intros row' [Hr|Hr] Hy; [subst; congruence|now apply I5].
      * intros Hf. now rewrite I6.
Qed.

(** X20. The update-based save, [saveDrawingToDb]: with no current
    drawing it sends nothing.  Delivered, its update rewrites the snapshot
    and the name of the rows whose id is the current one and nothing else:
    every id, timestamp and owner stays, every other row stays, the Stroke Log
    stays.  When no row has the current id, as with a placeholder id, the
    table is unchanged and yet the save is not reported as failed. *)
Theorem saveDrawingToDb_rewrites_current_row :
  forall (r : State) (dataURL : string) (name : option string) (now : Z)
         (net_list : Net) (w : World),
    (JS.truthy (currentDrawingId r) = false ->
     forall net_update,
       saveDrawingToDb r dataURL name now net_update net_list w = (Returned tt, w)) /\
    (forall i,
       currentDrawingId r = Some i ->
       JS.truthy (Some i) = true ->
       let w' := snd (saveDrawingToDb r dataURL name now Up net_list w) in
       fst (saveDrawingToDb r dataURL name now Up net_list w) = Returned tt /\
       map Drawing.id (drawings (db w')) = map Drawing.id (drawings (db w)) /\
       map Drawing.created_at (drawings (db w')) =
         map Drawing.created_at (drawings (db w)) /\
       map Drawing.created_by (drawings (db w')) =
         map Drawing.created_by (drawings (db w)) /\
       (forall row, In row (drawings (db w)) -> has_id i row = false ->
                    In row (drawings (db w'))) /\
       (forall row', In row' (drawings (db w')) -> has_id i row' = true ->
                     Drawing.canvas_data row' = Some dataURL /\
                     Drawing.name row' =
                       or_default name ("Drawing " ++ JS.String_of_Z now)) /\
       drawing_strokes (db w') = drawing_strokes (db w) /\
       canvas w' = canvas w /\
       (filter (has_id i) (drawings (db w)) = [] ->
        drawings (db w') = drawings (db w) /\
        message (react w') <> "Error saving drawing")).
Proof.
  intros r dataURL name now net_list w. split.
  - intros Hno net_update. unfold saveDrawingToDb. rewrite Hno. reflexivity.
  - intros i Hi Hti. cbv zeta.
    destruct (update_rows_spec i dataURL
                (or_default name ("Drawing " ++ JS.String_of_Z now))
                (drawings (db w))) as (U1 & U2 & U3 & U4 & U5 & U6).
    cbv zeta in U1, U2, U3, U4, U5, U6.
    unfold saveDrawingToDb. rewrite Hi, Hti.
    open_world w. cbn [db drawings] in *. crunch.
    destruct net_list;
      (split; [reflexivity|]; split; [exact U1|]; split; [exact U2|];
       split; [exact U3|]; split; [exact U4|]; split; [exact U5|];
       split; [reflexivity|]; split; [reflexivity|];
       intros Hf; split; [now apply U6|cbn; discriminate]).
Qed.

Lemma loadDrawing_no_snapshot (i : string) (row : Drawing.t) (w : World) :
  filter (has_id i) (drawings (db w)) = [row] ->
  Drawing.canvas_data row = None ->
  loadDrawing i Up w =
    (Returned tt,
     mkWorld (react w) (canvas w) (db w) (images w)
       (log w ++ [Request (QGetDrawing i)])).
Proof.
  intros Hrow Hcd. open_world w. cbn [db drawings] in Hrow.
  unfold loadDrawing. crunch. rewrite Hrow. cbv beta iota. rewrite Hcd.
  reflexivity.
Qed.

(** X21. A [createNewDrawing] whose insert is delivered under a free key
    adds one row: public, without a snapshot, owned by the identity of the
    render, named after the time; its id becomes current.  Opening that
    drawing from the list afterwards changes nothing, since it has no
    snapshot. *)
Theorem createNewDrawing_adds_empty_public_row :
  forall (r : State) (u : User.t) (p : Pick) (now_name now_temp : Z) (w : World),
    user r = Some u ->
    existsb (has_id (pick_id p)) (drawings (db w)) = false ->
    let created := snd (createNewDrawing r Up p now_name now_temp w) in
    let row := Drawing.mk (pick_id p) ("Drawing " ++ JS.String_of_Z now_name)
                 (pick_time p) (User.id u) true None in
    fst (createNewDrawing r Up p now_name now_temp w) = Returned tt /\
    drawings (db created) = drawings (db w) ++ [row] /\
    drawing_strokes (db created) = drawing_strokes (db w) /\
    currentDrawingId (react created) = Some (pick_id p) /\
    canvas created = canvas w /\
    loadDrawing (pick_id p) Up created =
      (Returned tt,
       mkWorld (react created) (canvas created) (db created) (images created)
         (log created ++ [Request (QGetDrawing (pick_id p))])).
Proof.
  intros r u p now_name now_temp w Hu Hfresh. cbv zeta.
  assert (fst (createNewDrawing r Up p now_name now_temp w) = Returned tt /\
          drawings (db (snd (createNewDrawing r Up p now_name now_temp w))) =
            drawings (db w) ++
            [Drawing.mk (pick_id p) ("Drawing " ++ JS.String_of_Z now_name)
               (pick_time p) (User.id u) true None] /\
          drawing_strokes (db (snd (createNewDrawing r Up p now_name now_temp w))) =
            drawing_strokes (db w) /\
          currentDrawingId
            (react (snd (createNewDrawing r Up p now_name now_temp w))) =
            Some (pick_id p) /\
          canvas (snd (createNewDrawing r Up p now_name now_temp w)) = canvas w)
    as (C1 & C2 & C3 & C4 & C5).
  { open_world w. open_state r. cbn [user] in Hu. subst rUser.
    cbn [db drawings] in Hfresh.
    unfold createNewDrawing. crunch. rewrite Hfresh. repeat split. }
  split; [exact C1|]. split; [exact C2|]. split; [exact C3|].
  split; [exact C4|]. split; [exact C5|].
  apply loadDrawing_no_snapshot
    with (row := Drawing.mk (pick_id p) ("Drawing " ++ JS.String_of_Z now_name)
                   (pick_time p) (User.id u) true None); [|reflexivity].
  rewrite C2, filter_app, filter_has_id_fresh by exact Hfresh.
  cbn [filter app]. unfold has_id at 1. cbn [Drawing.id].
  rewrite String.eqb_refl. reflexivity.
Qed.

(** X22. [handleImageUpload]: with no file chosen, or a file that does
    not decode, nothing changes and nothing is shown.  With an image, the
    canvas is cleared and the image drawn over all of it, the image tools are
    switched on and both sliders are put back to 100; an adjustment made
    right then, from the next render, leaves the uploaded picture as it is
    wherever the canvas reads back what is written to it, as it does for a
    picture without translucent pixels. *)
Theorem upload_then_adjust_keeps_image :
  forall (B : Browser) (scaled : Bitmap -> Bitmap -> Bitmap) (w : World),
    handleImageUpload B scaled None w = (Returned tt, w) /\
    (forall dataURL,
       decode_image B dataURL = None ->
       handleImageUpload B scaled (Some dataURL) w = (Returned tt, w)) /\
    (forall dataURL img,
       decode_image B dataURL = Some img ->
       Forall is_byte
         (data (scaled (clearRect_all (bitmap (canvas w))) img)) ->
       let up := snd (handleImageUpload B scaled (Some dataURL) w) in
       bitmap (canvas up) = scaled (clearRect_all (bitmap (canvas w))) img /\
       imageLoaded (react up) = true /\
       brightness (react up) = 100%float /\
       contrast (react up) = 100%float /\
       db up = db w /\
       (forall q,
          read_back_data q (data (bitmap (canvas up))) = data (bitmap (canvas up)) ->
          bitmap (canvas (snd (handleAdjust q (render up) up))) =
            bitmap (canvas up)) /\
       (forall q,
          opaque (data (bitmap (canvas up))) = true ->
          bitmap (canvas (snd (handleAdjust q (render up) up))) =
            bitmap (canvas up))).
Proof.
  intros B scaled w. split; [reflexivity|]. split.
  - intros dataURL Hd. unfold handleImageUpload. rewrite Hd. reflexivity.
  - intros dataURL img Hd Hbytes. cbv zeta.
    unfold handleImageUpload. rewrite Hd.
    split; [reflexivity|]. split; [reflexivity|]. split; [reflexivity|].
    split; [reflexivity|]. split; [reflexivity|]. split.
    + intros q Hback.
      apply handleAdjust_neutral; [reflexivity|reflexivity|exact Hbytes|exact Hback].
    + intros q Hop.
      apply handleAdjust_neutral; [reflexivity|reflexivity|exact Hbytes|].
      match goal with
      | |- read_back_data q ?d = ?d =>
          apply (read_back_data_shape q (List.length d) d (Nat.le_refl _))
      end.
      exact Hop.
Qed.

(** X23. The coordinates [draw] logs: for a pointer position that is a
    finite number the logged coordinate is an integer, the one nearest to the
    position relative to the canvas (half-way cases going up); for a position
    that is not finite it is [null]. *)
Theorem logged_coordinates_are_nearest_integers :
  forall (r : State) (u : User.t) (e : MouseEvent) (rect : DOMRect),
    (forall n ex,
       JS.dyadic (PrimFloat.sub (clientX e) (left rect)) = Some (n, ex) ->
       exists k,
         Stroke.x (stroke_row r u e rect) = Some k /\
         if 0 <=? ex then k = n * 2 ^ ex
         else (2 * k - 1) * 2 ^ (- ex - 1) <= n < (2 * k + 1) * 2 ^ (- ex - 1)) /\
    (forall n ex,
       JS.dyadic (PrimFloat.sub (clientY e) (top rect)) = Some (n, ex) ->
       exists k,
         Stroke.y (stroke_row r u e rect) = Some k /\
         if 0 <=? ex then k = n * 2 ^ ex
         else (2 * k - 1) * 2 ^ (- ex - 1) <= n < (2 * k + 1) * 2 ^ (- ex - 1)) /\
    (JS.isFinite (PrimFloat.sub (clientX e) (left rect)) = false ->
     Stroke.x (stroke_row r u e rect) = None) /\
    (JS.isFinite (PrimFloat.sub (clientY e) (top rect)) = false ->
     Stroke.y (stroke_row r u e rect) = None).
Proof.
  intros r u e rect. unfold stroke_row, pointer. cbn [Stroke.x Stroke.y fst snd].
  repeat split.
  - intros n ex H. now apply Math_round_nearest.
  - intros n ex H. now apply Math_round_nearest.
  - unfold JS.isFinite, JS.Math_round.
    destruct (JS.dyadic _) as [[n ex]|]; [discriminate|reflexivity].
  - unfold JS.isFinite, JS.Math_round.
    destruct (JS.dyadic _) as [[n ex]|]; [discriminate|reflexivity].
Qed.

(** X24. The session restore of the mount effect, [fetchUser]: when the
    provider knows no user (no data, or data without a user, whatever error
    comes with it) nothing changes and nothing is shown.  When it knows one,
    the identity is set and the listing of the whole table becomes the Drawing
    list, while, run from the first render, the creation call does nothing:
    the tables and the current-Drawing id are as they were. *)
Theorem fetchUser_restores_identity_and_list :
  forall (r : State) (net_list net_create : Net) (p : Pick)
         (now_name now_temp : Z) (w : World),
    (forall err,
       react (snd (fetchUser r (Fulfilled (Response.mk None err)) net_list
                     net_create p now_name now_temp w)) = react w /\
       react (snd (fetchUser r (Fulfilled (Response.mk (Some None) err)) net_list
                     net_create p now_name now_temp w)) = react w) /\
    (forall u err,
       user r = None ->
       let w' := snd (fetchUser r (Fulfilled (Response.mk (Some (Some u)) err))
                        Up net_create p now_name now_temp w) in
       user (react w') = Some u /\
       savedDrawings (react w') =
         map Drawing.summary_of (order_desc (drawings (db w))) /\
       currentDrawingId (react w') = currentDrawingId (react w) /\
       message (react w') = message (react w) /\
       db w' = db w /\
       canvas w' = canvas w).
Proof.
  intros r net_list net_create p now_name now_temp w. split.
  - intros err. split; reflexivity.
  - intros u err Hu. cbv zeta. unfold fetchUser, createNewDrawing. rewrite Hu.
    repeat split.
Qed.

(** *** Instances of the further properties *)

Lemma signIn_failure_keeps_form_witness :
  email (react (snd (signIn (render form_world) (Rejected (Error.mk "Failed to fetch"))
                       Up Up (mkPick "d3" 9) 1 2 form_world))) =
    "alice@example.com" /\
  message (react (snd (signIn (render form_world)
                         (Rejected (Error.mk "Failed to fetch"))
                         Up Up (mkPick "d3" 9) 1 2 form_world))) =
    "Error signing in: Failed to fetch".
Proof.
  destruct (proj2 (signIn_failure_keeps_form (render form_world) Up Up
                     (mkPick "d3" 9) 1 2 form_world)
              (Rejected (Error.mk "Failed to fetch")) (Error.mk "Failed to fetch")
              (or_introl eq_refl))
    as (Hreact & _ & _ & _ & Hemail & _).
  split; [exact Hemail|exact (f_equal message Hreact)].
Defined.

Lemma signUp_never_signs_in_witness :
  message (react (snd (signUp (render form_world)
                         (Fulfilled (mkAuthResponse None
                                       (Some (Error.mk "User already registered"))))
                         form_world))) =
    "Error signing up: User already registered" /\
  email (react (snd (signUp (render form_world)
                       (Fulfilled (mkAuthResponse None
                                     (Some (Error.mk "User already registered"))))
                       form_world))) =
    "alice@example.com".
Proof.
  destruct (proj2 (proj2 (signUp_never_signs_in (render form_world) form_world))
              (Fulfilled (mkAuthResponse None
                            (Some (Error.mk "User already registered"))))
              (Error.mk "User already registered")
              (or_intror (ex_intro _ None eq_refl)))
    as (Hmsg & _ & Hemail & _).
  split; [exact Hmsg|exact Hemail].
Defined.

Lemma loadSavedDrawings_failure_keeps_list_witness :
  message (react (snd (loadSavedDrawings (Down (Error.mk "Failed to fetch"))
                         (demo_world signed_in)))) =
    "Error loading drawings: Failed to fetch" /\
  savedDrawings (react (snd (loadSavedDrawings (Down (Error.mk "Failed to fetch"))
                               (demo_world signed_in)))) = [].
Proof.
  destruct (proj1 (loadSavedDrawings_failure_keeps_list (demo_world signed_in))
              (Down (Error.mk "Failed to fetch")) (Error.mk "Failed to fetch")
              (or_intror eq_refl))
    as (_ & Hlist & Hmsg & _).
  split; [exact Hmsg|exact Hlist].
Defined.

Lemma saveDrawing_lists_new_drawing_first_witness :
  user signed_in = Some alice /\
  existsb (has_id "d3") (drawings demo_db) = false /\
  Forall (fun d => Drawing.created_at d < 9) (drawings demo_db) /\
  map Drawing.s_id
    (savedDrawings
       (react (snd (saveDrawing demo_browser signed_in None 77 Up (mkPick "d3" 9) Up
                      (demo_world signed_in))))) =
    "d3" :: map Drawing.id (order_desc (drawings demo_db)).
Proof.
  assert (Forall (fun d => Drawing.created_at d < 9) (drawings demo_db)) as Hold
    by (repeat constructor).
  split; [reflexivity|]. split; [reflexivity|]. split; [exact Hold|].
  exact (f_equal (map Drawing.s_id)
           (saveDrawing_lists_new_drawing_first demo_browser signed_in alice None 77
              (mkPick "d3" 9) (demo_world signed_in) eq_refl eq_refl Hold)).
Defined.

Lemma saveDrawing_failure_keeps_current_witness :
  user red_brush = Some alice /\
  currentDrawingId
    (react (snd (saveDrawing demo_browser red_brush None 77
                   (Refused (Error.mk "permission denied")) (mkPick "d3" 9) Up
                   (demo_world red_brush)))) = Some "d1" /\
  db (snd (saveDrawing demo_browser red_brush None 77
             (Refused (Error.mk "permission denied")) (mkPick "d3" 9) Up
             (demo_world red_brush))) = demo_db.
Proof.
  split; [reflexivity|].
  destruct (proj2 (saveDrawing_failure_keeps_current demo_browser red_brush None 77
                     (Refused (Error.mk "permission denied")) (mkPick "d3" 9) Up
                     (demo_world red_brush)) alice eq_refl)
    as (_ & _ & Hcur & _ & _ & Hdb & _).
  - cbn. discriminate.
  - split; [exact Hcur|exact Hdb].
Defined.

Lemma save_then_load_redraws_snapshot_witness :
  user signed_in = Some alice /\
  existsb (has_id "d3") (drawings demo_db) = false /\
  decode_image demo_browser (toDataURL demo_browser red_pixel) = Some red_pixel /\
  bitmap
    (canvas
       (snd (image_settles demo_browser (toDataURL demo_browser red_pixel)
               (snd (loadDrawing "d3" Up
                       (snd (saveDrawing demo_browser signed_in None 77 Up
                               (mkPick "d3" 9) Up (demo_world signed_in)))))))) =
    red_pixel.
Proof.
  split; [reflexivity|]. split; [reflexivity|]. split; [reflexivity|].
  destruct (save_then_load_redraws_snapshot demo_browser signed_in alice None 77
              (mkPick "d3" 9) Up red_pixel (demo_world signed_in)
              eq_refl eq_refl eq_refl eq_refl)
    as (_ & _ & _ & Hshown).
  exact Hshown.
Defined.

Lemma loadDrawing_failure_only_message_witness :
  message (react (snd (loadDrawing "d9" Up (demo_world signed_in)))) =
    "Error loading drawing" /\
  images (snd (loadDrawing "d9" Up (demo_world signed_in))) = [].
Proof.
  destruct (loadDrawing_failure_only_message "d9" Up (demo_world signed_in))
    as (_ & Hreact & _ & _ & Himg & _).
  - cbn. discriminate.
  - split; [exact (f_equal message Hreact)|exact Himg].
Defined.

Lemma loadDrawing_late_image_wins_witness :
  filter (has_id "d7") (drawings (db exhibition_world)) = [pixel_row] /\
  filter (has_id "d8") (drawings (db exhibition_world)) = [green_row] /\
  decode_image demo_browser png_of_red_pixel = Some red_pixel /\
  decode_image demo_browser png_of_green_pixel = Some green_pixel /\
  currentDrawingId
    (react
       (snd (image_settles demo_browser png_of_red_pixel
               (snd (image_settles demo_browser png_of_green_pixel
                       (snd (loadDrawing "d8" Up
                               (snd (loadDrawing "d7" Up exhibition_world))))))))) =
    Some "d8" /\
  bitmap
    (canvas
       (snd (image_settles demo_browser png_of_red_pixel
               (snd (image_settles demo_browser png_of_green_pixel
                       (snd (loadDrawing "d8" Up
                               (snd (loadDrawing "d7" Up exhibition_world))))))))) =
    red_pixel.
Proof.
  split; [reflexivity|]. split; [reflexivity|]. split; [reflexivity|].
  split; [reflexivity|].
  destruct (loadDrawing_late_image_wins demo_browser "d7" "d8" pixel_row green_row
              png_of_red_pixel png_of_green_pixel red_pixel green_pixel
              exhibition_world eq_refl eq_refl eq_refl eq_refl eq_refl eq_refl
              eq_refl eq_refl)
    as (Hid & Hbits & _).
  split; [exact Hid|exact Hbits].
Defined.

Lemma stroke_builds_one_path_witness :
  user (react (demo_world signed_in)) = Some alice /\
  finite_point (pointer at_10_10 origin) = true /\
  path
    (ctx
       (canvas
          (play demo_browser
             (MouseDown at_10_10 origin
              :: pointer_moves origin
                   [(at_12_10, Up); (at_14_11, Down (Error.mk "Failed to fetch"))])
             (demo_world signed_in)))) =
    [[pointer at_10_10 origin; pointer at_12_10 origin; pointer at_14_11 origin]] /\
  List.length
    (drawing_strokes
       (db
          (play demo_browser
             (MouseDown at_10_10 origin
              :: pointer_moves origin
                   [(at_12_10, Up); (at_14_11, Down (Error.mk "Failed to fetch"))])
             (demo_world signed_in)))) = 1%nat.
Proof.
  split; [reflexivity|]. split; [reflexivity|].
  destruct (stroke_builds_one_path demo_browser alice at_10_10 origin
              [(at_12_10, Up); (at_14_11, Down (Error.mk "Failed to fetch"))]
              (demo_world signed_in) eq_refl eq_refl)
    as (Hpath & _ & Hlen).
  - repeat constructor.
  - split; [exact Hpath|exact Hlen].
Defined.

Lemma first_stroke_after_signIn_has_no_drawing_witness :
  offered form_world
    (SignInClick (Fulfilled (mkAuthResponse (Some alice) None)) Up Up
       (mkPick "d3" 9) 1 2) = true /\
  currentDrawingId (react form_world) = None /\
  drawing_strokes
    (db
       (play demo_browser
          [SignInClick (Fulfilled (mkAuthResponse (Some alice) None)) Up Up
             (mkPick "d3" 9) 1 2;
           MouseDown at_10_10 origin;
           MouseMove at_12_10 origin Up] form_world)) =
    [Stroke.mk None "u-alice" (Some 12) (Some 10) "#000000" 5].
Proof.
  split; [reflexivity|]. split; [reflexivity|].
  destruct (first_stroke_after_signIn_has_no_drawing demo_browser alice Up Up
              (mkPick "d3" 9) 1 2 at_10_10 at_12_10 origin form_world
              eq_refl eq_refl eq_refl eq_refl)
    as (_ & _ & Hstrokes).
  exact Hstrokes.
Defined.

Lemma clear_during_stroke_repaints_path_witness :
  isDrawing red_brush = true /\
  user red_brush = Some alice /\
  finite_point (pointer at_10_10 origin) = true /\
  is_blank (bitmap (canvas (snd (clearCanvas (demo_world red_brush))))).
Proof.
  split; [reflexivity|]. split; [reflexivity|]. split; [reflexivity|].
  exact (proj1 (proj2 (clear_during_stroke_repaints_path demo_browser red_brush
                         alice at_10_10 origin Up (demo_world red_brush)
                         eq_refl eq_refl eq_refl))).
Defined.

Lemma handleAdjust_keeps_bytes_witness :
  wf_bitmap (bitmap (canvas (demo_world signed_in))) /\
  wf_bitmap
    (bitmap (canvas (snd (handleAdjust demo_read_back
                            (setBrightness 150%float signed_in)
                            (demo_world signed_in))))).
Proof.
  assert (wf_bitmap (bitmap (canvas (demo_world signed_in)))) as Hwf.
  { split; [discriminate|]. split; [discriminate|]. split; [reflexivity|].
    repeat constructor; discriminate. }
  split; [exact Hwf|].
  exact (handleAdjust_keeps_bytes demo_read_back
           (setBrightness 150%float signed_in) (demo_world signed_in) Hwf).
Defined.

Lemma handleAdjust_keeps_shape_and_alpha_witness :
  fst (handleAdjust demo_read_back dim_and_sharp dark_world) = Returned tt /\
  (exists e,
     handleAdjust demo_read_back dim_and_sharp collapsed_world =
       (Thrown e, collapsed_world)).
Proof.
  destruct (handleAdjust_keeps_shape_and_alpha demo_read_back dim_and_sharp
              dark_world) as (_ & _ & _ & _ & _ & _ & _ & Hreturns & _).
  destruct (handleAdjust_keeps_shape_and_alpha demo_read_back dim_and_sharp
              collapsed_world) as (_ & _ & _ & _ & _ & _ & _ & _ & Hthrows).
  split; [apply Hreturns; discriminate|].
  apply Hthrows. left. reflexivity.
Defined.

Lemma tables_are_not_written_while_signed_out_witness :
  existsb signs_in
    [MouseDown at_10_10 origin; MouseMove at_12_10 origin Up;
     SaveClick None 77 Up (mkPick "d3" 9) Up;
     SignInClick (Rejected (Error.mk "Failed to fetch")) Up Up (mkPick "d3" 9) 1 2]
    = false /\
  db (play demo_browser
        [MouseDown at_10_10 origin; MouseMove at_12_10 origin Up;
         SaveClick None 77 Up (mkPick "d3" 9) Up;
         SignInClick (Rejected (Error.mk "Failed to fetch")) Up Up
           (mkPick "d3" 9) 1 2]
        (snd (signOut (Fulfilled None) strip_world))) = demo_db /\
  width (bitmap (canvas (snd (handleRotate demo_rotated
                                (snd (signOut (Fulfilled None) strip_world)))))) = 1.
Proof.
  split; [reflexivity|].
  destruct (tables_are_not_written_while_signed_out demo_browser strip_world)
    as (Hinv & _ & _ & _ & _ & _ & Hrot).
  split.
  - exact (proj1 (Hinv [MouseDown at_10_10 origin; MouseMove at_12_10 origin Up;
                         SaveClick None 77 Up (mkPick "d3" 9) Up;
                         SignInClick (Rejected (Error.mk "Failed to fetch")) Up Up
                           (mkPick "d3" 9) 1 2] eq_refl)).
  - exact (proj1 (proj2 (Hrot demo_rotated eq_refl eq_refl))).
Defined.


Lemma rotation_loses_round_brush_witness :
  fst (handleRotate demo_rotated strip_world) = Returned tt /\
  lineCap
    (ctx
       (canvas
          (play demo_browser [MouseDown at_10_10 origin; MouseMove at_12_10 origin Up]
             (snd (handleRotate demo_rotated strip_world))))) = "butt".
Proof.
  split; [reflexivity|].
  exact (proj1 (proj2 (rotation_loses_round_brush demo_browser demo_rotated
                         [MouseDown at_10_10 origin; MouseMove at_12_10 origin Up]
                         strip_world) eq_refl)).
Defined.

Lemma handleRotate_swaps_dimensions_witness :
  0 < width (bitmap (canvas strip_world)) /\
  0 < height (bitmap (canvas strip_world)) /\
  width (bitmap (canvas (snd (handleRotate demo_rotated strip_world)))) = 1 /\
  height (bitmap (canvas (snd (handleRotate demo_rotated strip_world)))) = 3 /\
  handleRotate demo_rotated collapsed_world =
    (Thrown InvalidStateError, collapsed_world).
Proof.
  split; [reflexivity|]. split; [reflexivity|].
  destruct (proj1 (handleRotate_swaps_dimensions demo_rotated demo_rotated
                     strip_world) eq_refl eq_refl)
    as (_ & Hw & Hh & _).
  split; [exact Hw|]. split; [exact Hh|].
  exact (proj2 (handleRotate_swaps_dimensions demo_rotated demo_rotated
                  collapsed_world) (or_introl eq_refl)).
Defined.

Lemma saveDrawingToDb_rewrites_current_row_witness :
  currentDrawingId red_brush = Some "d1" /\
  map Drawing.id
    (drawings
       (db (snd (saveDrawingToDb red_brush png_of_red_pixel None 77 Up Up
                   (demo_world red_brush))))) = ["d1"; "d2"] /\
  In doodle
    (drawings
       (db (snd (saveDrawingToDb red_brush png_of_red_pixel None 77 Up Up
                   (demo_world red_brush))))).
Proof.
  split; [reflexivity|].
  destruct (proj2 (saveDrawingToDb_rewrites_current_row red_brush png_of_red_pixel
                     None 77 Up (demo_world red_brush)) "d1" eq_refl eq_refl)
    as (_ & Hids & _ & _ & Hkept & _).
  split; [exact Hids|].
  apply Hkept; [right; left; reflexivity|reflexivity].
Defined.

Lemma createNewDrawing_adds_empty_public_row_witness :
  user signed_in = Some alice /\
  existsb (has_id "d3") (drawings (db (demo_world signed_in))) = false /\
  currentDrawingId
    (react (snd (createNewDrawing signed_in Up (mkPick "d3" 9) 77 78
                   (demo_world signed_in)))) = Some "d3" /\
  drawings (db (snd (createNewDrawing signed_in Up (mkPick "d3" 9) 77 78
                       (demo_world signed_in)))) =
    [sketch; doodle; Drawing.mk "d3" "Drawing 77" 9 "u-alice" true None].
Proof.
  split; [reflexivity|]. split; [reflexivity|].
  destruct (createNewDrawing_adds_empty_public_row signed_in alice (mkPick "d3" 9)
              77 78 (demo_world signed_in) eq_refl eq_refl)
    as (_ & Hrows & _ & Hcur & _).
  split; [exact Hcur|exact Hrows].
Defined.

Lemma upload_then_adjust_keeps_image_witness :
  decode_image demo_browser png_of_red_pixel = Some red_pixel /\
  bitmap
    (canvas (snd (handleImageUpload demo_browser (drawImage demo_browser)
                    (Some png_of_red_pixel) gallery_world))) = red_pixel /\
  opaque (data red_pixel) = true /\
  bitmap
    (canvas
       (snd (handleAdjust demo_read_back
               (render (snd (handleImageUpload demo_browser (drawImage demo_browser)
                               (Some png_of_red_pixel) gallery_world)))
               (snd (handleImageUpload demo_browser (drawImage demo_browser)
                       (Some png_of_red_pixel) gallery_world))))) = red_pixel.
Proof.
  split; [reflexivity|].
  destruct (proj2 (proj2 (upload_then_adjust_keeps_image demo_browser
                            (drawImage demo_browser) gallery_world))
              png_of_red_pixel red_pixel eq_refl)
    as (Hbits & _ & _ & _ & _ & _ & Hkept).
  - repeat constructor; discriminate.
  - split; [exact Hbits|]. split; [reflexivity|].
    exact (eq_trans (Hkept demo_read_back eq_refl) Hbits).
Defined.

Lemma logged_coordinates_are_nearest_integers_witness :
  JS.dyadic (PrimFloat.sub (clientX at_10_10) (left origin)) =
    Some (5629499534213120, -49) /\
  exists k,
    Stroke.x (stroke_row red_brush alice at_10_10 origin) = Some k /\
    (2 * k - 1) * 2 ^ 48 <= 5629499534213120 < (2 * k + 1) * 2 ^ 48.
Proof.
  split; [reflexivity|].
  exact (proj1 (logged_coordinates_are_nearest_integers red_brush alice at_10_10
                  origin) 5629499534213120 (-49) eq_refl).
Defined.

Lemma fetchUser_restores_identity_and_list_witness :
  user signed_out = None /\
  user
    (react (snd (fetchUser signed_out
                   (Fulfilled (Response.mk (Some (Some alice)) None)) Up Up
                   (mkPick "d3" 9) 1 2 (demo_world signed_out)))) = Some alice /\
  db (snd (fetchUser signed_out
             (Fulfilled (Response.mk (Some (Some alice)) None)) Up Up
             (mkPick "d3" 9) 1 2 (demo_world signed_out))) = demo_db.
Proof.
  split; [reflexivity|].
  destruct (proj2 (fetchUser_restores_identity_and_list signed_out Up Up
                     (mkPick "d3" 9) 1 2 (demo_world signed_out)) alice None eq_refl)
    as (Huser & _ & _ & _ & Hdb & _).
  split; [exact Huser|exact Hdb].
Defined.

Lemma page_never_creates_eagerly_witness :
  react (demo_world signed_out) = initialState /\
  log (demo_world signed_out) = [] /\
  existsb is_creation
    (log (play demo_browser
            [SignInTab;
             SignInClick (Fulfilled (mkAuthResponse (Some alice) None)) Up Up
               (mkPick "d3" 9) 1 2;
             MouseDown at_10_10 origin;
             MouseMove at_12_10 origin Up]
            (snd (fetchUser (render (demo_world signed_out))
                    (Fulfilled (Response.mk (Some None) None)) Up Up
                    (mkPick "d3" 9) 1 2 (demo_world signed_out))))) = false.
Proof.
  split; [reflexivity|]. split; [reflexivity|].
  exact (page_never_creates_eagerly demo_browser
           (Fulfilled (Response.mk (Some None) None)) Up Up (mkPick "d3" 9) 1 2
           [SignInTab;
            SignInClick (Fulfilled (mkAuthResponse (Some alice) None)) Up Up
              (mkPick "d3" 9) 1 2;
            MouseDown at_10_10 origin;
            MouseMove at_12_10 origin Up]
           (demo_world signed_out) eq_refl eq_refl).
Defined.
